(** * falcon_kit.util.io: process readers, line splitting, FOFN validation

    A shallow embedding of [falcon_kit/util/io.py] and the properties of its
    process-output readers, of [splitlines_iter], of [syscall] and of the
    FOFN validator.

    Python [str] values are modelled as [string]; a character is a code
    point below 256 (the readers decode the pipe as ASCII).  Python [int]
    values are [Z].  Generators are modelled by the list of values they
    yield together with the way they end. *)

From Stdlib Require Import ZArith List Bool Lia.
From Stdlib Require Import Strings.String Strings.Ascii.
From Stdlib Require Import Numbers.DecimalString.
Import ListNotations.

Local Open Scope list_scope.
Local Open Scope string_scope.
Local Open Scope Z_scope.

(** ** Python strings *)

Module PyStr.

Definition NL : ascii := "010"%char.

(** [len(s)] *)
Definition len (s : string) : Z := Z.of_nat (String.length s).

(** [s[n:]] and [s[:n]] for a natural [n]. *)
Fixpoint drop (n : nat) (s : string) : string :=
  match n, s with
  | O, _ => s
  | S _, EmptyString => EmptyString
  | S n', String _ s' => drop n' s'
  end.

Fixpoint take (n : nat) (s : string) : string :=
  match n, s with
  | O, _ => EmptyString
  | S _, EmptyString => EmptyString
  | S n', String c s' => String c (take n' s')
  end.

(** Offset of the first occurrence of [c] in [s]. *)
Fixpoint find_offset (c : ascii) (s : string) : option nat :=
  match s with
  | EmptyString => None
  | String a s' =>
      if Ascii.eqb a c then Some O else option_map S (find_offset c s')
  end.

(** How Python adjusts one bound of a slice against the length [n]. *)
Definition adjust_index (i n : Z) : Z :=
  if i <? 0 then Z.max 0 (i + n) else Z.min i n.

(** [text.find(c, start)] for a one-character needle [c]: the lowest index
    at or after [start] where [c] occurs, [-1] when there is none. *)
Definition find (text : string) (c : ascii) (start : Z) : Z :=
  let n := len text in
  let st := if start <? 0 then Z.max 0 (start + n) else start in
  if n <? st then -1
  else match find_offset c (drop (Z.to_nat st) text) with
       | Some k => st + Z.of_nat k
       | None => -1
       end.

(** [text[lo:hi]] *)
Definition slice (text : string) (lo hi : Z) : string :=
  let n := len text in
  let lo' := adjust_index lo n in
  let hi' := adjust_index hi n in
  take (Z.to_nat (hi' - lo')) (drop (Z.to_nat lo') text).

(** [text[lo:]] *)
Definition slice_from (text : string) (lo : Z) : string :=
  slice text lo (len text).

(** [sep.join(parts)] *)
Fixpoint join (sep : string) (parts : list string) : string :=
  match parts with
  | [] => ""
  | [p] => p
  | p :: rest => p ++ sep ++ join sep rest
  end.

(** Whether ['\n'] occurs in [s]. *)
Fixpoint has_nl (s : string) : bool :=
  match s with
  | EmptyString => false
  | String a s' => Ascii.eqb a NL || has_nl s'
  end.

(** [s.endswith('\n')] *)
Fixpoint ends_with_nl (s : string) : bool :=
  match s with
  | EmptyString => false
  | String a EmptyString => Ascii.eqb a NL
  | String _ s' => ends_with_nl s'
  end.

Definition is_empty (s : string) : bool :=
  match s with EmptyString => true | _ => false end.

(** [str.isspace] on one character: the ASCII white space characters
    (tab, LF, VT, FF, CR, FS, GS, RS, US, space) and, in the Latin-1 range,
    NEL and the no-break space. *)
Definition isspace (c : ascii) : bool :=
  let n := nat_of_ascii c in
  ((9 <=? n) && (n <=? 13) || (28 <=? n) && (n <=? 32)
   || (n =? 133) || (n =? 160))%nat.

(** [s.rstrip()] with no argument: the trailing run of white space is
    removed. *)
Fixpoint rstrip (s : string) : string :=
  match s with
  | EmptyString => EmptyString
  | String c s' =>
      match rstrip s' with
      | EmptyString => if isspace c then EmptyString else String c EmptyString
      | r => String c r
      end
  end.

(** [s.lstrip()] and [s.strip()] *)
Fixpoint lstrip (s : string) : string :=
  match s with
  | EmptyString => EmptyString
  | String c s' => if isspace c then lstrip s' else s
  end.

Definition strip (s : string) : string := rstrip (lstrip s).

(** Whether the last character of [s] is white space. *)
Fixpoint ends_with_space (s : string) : bool :=
  match s with
  | EmptyString => false
  | String a EmptyString => isspace a
  | String _ s' => ends_with_space s'
  end.

Fixpoint all_space (s : string) : bool :=
  match s with
  | EmptyString => true
  | String a s' => isspace a && all_space s'
  end.

(** [s.split()] with no argument: the maximal runs of characters that are
    not white space.  [cur] is the run being read, in reverse. *)
Fixpoint rev_string (acc s : string) : string :=
  match s with
  | EmptyString => acc
  | String c s' => rev_string (String c acc) s'
  end.

Fixpoint split_ws_from (cur : string) (s : string) : list string :=
  match s with
  | EmptyString =>
      if is_empty cur then [] else [rev_string "" cur]
  | String c s' =>
      if isspace c
      then (if is_empty cur then split_ws_from "" s'
            else rev_string "" cur :: split_ws_from "" s')
      else split_ws_from (String c cur) s'
  end.

Definition split_ws (s : string) : list string := split_ws_from "" s.

End PyStr.

(** ** [splitlines_iter] *)

(** The [while True] loop of [splitlines_iter], from the state [prevnl].
    Every turn either stops or moves [prevnl] to a later newline, so a
    budget of one turn per character plus one is enough; [None] is the
    budget running out. *)
Fixpoint splitlines_loop (fuel : nat) (text : string) (prevnl : Z)
  : option (list string) :=
  match fuel with
  | O => None
  | S fuel' =>
      let nextnl := PyStr.find text PyStr.NL (prevnl + 1) in
      if nextnl <? 0
      then Some (if (prevnl + 1) =? PyStr.len text
                 then []
                 else [PyStr.slice_from text (prevnl + 1)])
      else option_map (cons (PyStr.slice text (prevnl + 1) nextnl))
                      (splitlines_loop fuel' text nextnl)
  end.

(** The lines [splitlines_iter(text)] yields, in order. *)
Definition splitlines_iter (text : string) : option (list string) :=
  splitlines_loop (S (String.length text)) text (-1).

(** ** Python values, exceptions and [repr] *)

Inductive PyVal : Type :=
| PyNone
| PyInt (z : Z)
| PyStr (s : string)
| PyStrList (items : list string).

(** An exception object: its class, its [args] tuple and the attributes
    set on the instance besides [args]. *)
Record PyExc : Type := mkExc {
  exc_class : string;
  exc_args : list PyVal;
  exc_attrs : list (string * PyVal)
}.

(** What running a piece of code comes to: it returns, it raises, or it
    blocks for ever. *)
Inductive Result (A : Type) : Type :=
| Ok (a : A)
| Raise (e : PyExc)
| Hang.
Arguments Ok {A} a.
Arguments Raise {A} e.
Arguments Hang {A}.

Module Repr.

Definition squote : ascii := "039"%char.
Definition dquote : ascii := "034"%char.
Definition backslash : ascii := "092"%char.

(** [repr(n)] of an [int], also what ['%d'] and ['{}'] print. *)
Definition repr_int (z : Z) : string := NilZero.string_of_int (Z.to_int z).

Definition hex_digit (n : nat) : ascii :=
  match String.get n "0123456789abcdef" with
  | Some c => c
  | None => "0"%char
  end.

Definition hex_escape (n : nat) : string :=
  String backslash
    (String "x"
       (String (hex_digit (n / 16)) (String (hex_digit (n mod 16)) ""))).

(** [str.isprintable] on a code point of the Latin-1 upper half: the C1
    controls, the no-break space and the soft hyphen are not printable. *)
Definition isprintable_high (n : nat) : bool :=
  negb (((128 <=? n) && (n <=? 160)) || (n =? 173))%nat.

Fixpoint has_char (c : ascii) (s : string) : bool :=
  match s with
  | EmptyString => false
  | String a s' => Ascii.eqb a c || has_char c s'
  end.

(** The quote [repr] encloses a string in: a double quote when the string
    holds a single quote and no double quote, a single quote otherwise. *)
Definition quote_for (s : string) : ascii :=
  if has_char squote s && negb (has_char dquote s) then dquote else squote.

Definition repr_char (quote c : ascii) : string :=
  let n := nat_of_ascii c in
  if Ascii.eqb c quote || Ascii.eqb c backslash
  then String backslash (String c "")
  else if (n =? 9)%nat then String backslash "t"
  else if (n =? 10)%nat then String backslash "n"
  else if (n =? 13)%nat then String backslash "r"
  else if ((n <? 32) || (n =? 127))%nat then hex_escape n
  else if (n <? 127)%nat then String c ""
  else if isprintable_high n then String c ""
  else hex_escape n.

Fixpoint repr_body (quote : ascii) (s : string) : string :=
  match s with
  | EmptyString => EmptyString
  | String c s' => repr_char quote c ++ repr_body quote s'
  end.

(** [repr(s)] of a [str], also what ['%r'] and ['{!r}'] print. *)
Definition repr_str (s : string) : string :=
  let q := quote_for s in
  String q (repr_body q s ++ String q "").

End Repr.

(** The builtin [Exception(msg)]. *)
Definition Exception (msg : string) : PyExc :=
  mkExc "Exception" [PyStr msg] [].

(** The [AssertionError] of a failed [assert]: without arguments for
    [assert e], with the message for [assert e, msg]. *)
Definition AssertionError (msg : option string) : PyExc :=
  mkExc "AssertionError"
        (match msg with Some m => [PyStr m] | None => [] end) [].

(** [subprocess.CalledProcessError(returncode, cmd, output)]. *)
Definition CalledProcessError (rc : Z) (argv : list string) (output : string)
  : PyExc :=
  mkExc "CalledProcessError"
        [PyInt rc; PyStrList argv]
        [("returncode", PyInt rc); ("cmd", PyStrList argv);
         ("output", PyStr output); ("stderr", PyNone)].

(** Truth value of a [returncode]: [None] and [0] are false. *)
Definition truthy_rc (rc : option Z) : bool :=
  match rc with
  | None => false
  | Some z => negb (z =? 0)
  end.

(** ** The world outside the module *)

(** A child process, as the reader sees it.  [child_stdout] is the text
    that the text-mode pipe delivers (decoded, newlines translated to
    ['\n']); [child_exit] is the exit status, [None] for a child that
    never exits and keeps its end of the pipe open.  A child that exits
    does so whether or not its output is read.  The decoding itself is
    [pipe_text], further down: a program whose output holds a byte above
    127 is no [Child], every read of it raises [UnicodeDecodeError]. *)
Record Child : Type := mkChild {
  child_stdout : string;
  child_exit : option Z
}.

Record World : Type := mkWorld {
  getpid : Z;
  (** [shlex.split(cmd)] *)
  shlex_split : string -> Result (list string);
  (** starting a child from an argument vector *)
  spawn : list string -> Result Child
}.

(** The text written to [sys.stderr], one element per [write]. *)
Definition Stderr : Type := list string.

(** ** Logging *)

Definition write_with_pid (w : World) (args : list string) (err : Stderr)
  : Stderr :=
  let msg := "[" ++ Repr.repr_int (getpid w) ++ "]"
             ++ PyStr.join " " args ++ String PyStr.NL "" in
  (err ++ [msg])%list.

Definition LOG := write_with_pid.

(** ** [syscall] *)

(** [subprocess.check_output(argv, encoding='ascii')]: the output of a
    child that exits with status 0, [CalledProcessError] for another
    status.  The output is the decoded text of the [Child]. *)
Definition check_output (w : World) (argv : list string) : Result string :=
  match spawn w argv with
  | Ok child =>
      match child_exit child with
      | None => Hang
      | Some rc =>
          if rc =? 0 then Ok (child_stdout child)
          else Raise (CalledProcessError rc argv (child_stdout child))
      end
  | Raise e => Raise e
  | Hang => Hang
  end.

Definition syscall (w : World) (cmd : string) (err : Stderr)
  : Result string * Stderr :=
  let err := LOG w ["DEPRECATED falcon_kit.util.io.syscall()"] err in
  let err := LOG w ["$ " ++ Repr.repr_str cmd ++ " >"] err in
  match shlex_split w cmd with
  | Raise e => (Raise e, err)
  | Hang => (Hang, err)
  | Ok argv =>
      match check_output w argv with
      | Raise e => (Raise e, err)
      | Hang => (Hang, err)
      | Ok output =>
          if PyStr.is_empty output
          then
            let msg := Repr.repr_str cmd ++ " failed to produce any output." in
            (Ok output, LOG w ["WARNING: " ++ msg] err)
          else (Ok output, err)
      end
  end.

(** ** The process readers *)

(** What was done to the child through the [Popen] object. *)
Inductive ProcOp : Type := OpWait | OpCommunicate | OpReadline.

(** A [subprocess.Popen] object: the child, the [returncode] attribute
    ([None] until the child has been reaped) and the calls made so far. *)
Record Popen : Type := mkPopen {
  popen_child : Child;
  popen_returncode : option Z;
  popen_ops : list ProcOp
}.

(** [proc.wait()]: blocks until the child exits, then records the status. *)
Definition Popen_wait (p : Popen) : Result Popen :=
  match child_exit (popen_child p) with
  | None => Hang
  | Some rc =>
      Ok (mkPopen (popen_child p) (Some rc) (popen_ops p ++ [OpWait])%list)
  end.

(** [proc.communicate()]: reads the pipe to its end, waits for the child
    and records the status; returns the whole output, which is the decoded
    text of the [Child]. *)
Definition Popen_communicate (p : Popen) : Result (string * Popen) :=
  match child_exit (popen_child p) with
  | None => Hang
  | Some rc =>
      Ok (child_stdout (popen_child p),
          mkPopen (popen_child p) (Some rc)
                  (popen_ops p ++ [OpCommunicate])%list)
  end.

(** The lines that iterating over a text file yields, terminators kept:
    every line ends in ['\n'] except possibly the last. *)
Fixpoint file_lines (s : string) : list string :=
  match s with
  | EmptyString => []
  | String c s' =>
      if Ascii.eqb c PyStr.NL then String c "" :: file_lines s'
      else match file_lines s' with
           | [] => [String c ""]
           | l :: ls => String c l :: ls
           end
  end.

(** The lines that iterating over [proc.stdout] can deliver: all of them
    once the child has exited; while the child keeps the pipe open, only
    the ones already terminated by a newline. *)
Definition stdout_lines (c : Child) : list string :=
  match child_exit c with
  | Some _ => file_lines (child_stdout c)
  | None => filter PyStr.ends_with_nl (file_lines (child_stdout c))
  end.

(** How much of a generator the caller consumes: [Take k] calls [next] at
    most [k] times, [Drain] runs it to its end. *)
Inductive Consume : Type :=
| Take (k : nat)
| Drain.

Definition consumed {A : Type} (c : Consume) (items : list A) : list A :=
  match c with
  | Take k => firstn k items
  | Drain => items
  end.

(** Whether the caller asks for more than the [n] items at hand, that is,
    whether it reaches the end of the generator. *)
Definition reaches_end (c : Consume) (n : nat) : bool :=
  match c with
  | Take k => (n <? k)%nat
  | Drain => true
  end.

(** The attributes of a reader object: [cmd], [proc] (absent outside the
    scope) and [returncode] (absent until [__exit__] sets it to the
    [None] or [int] of [proc.returncode]). *)
Record Reader : Type := mkReader {
  cmd : string;
  proc : option Popen;
  returncode : option (option Z)
}.

(** What consuming [readlines()] comes to: the lines delivered, the reader
    afterwards and how the consumption ended. *)
Record Read : Type := mkRead {
  read_lines : list string;
  read_reader : Reader;
  read_end : Result unit
}.

Definition AttributeError (name : string) : PyExc :=
  mkExc "AttributeError" [PyStr name] [].

Module ProcessReaderContext.

Definition __init__ (cmd : string) : Reader := mkReader cmd None None.

(** [__enter__]: logs the command and starts the child.  [Popen] is given
    [stdout=PIPE], [universal_newlines=True] and [encoding='ascii']; the
    text that this pipe delivers is the [child_stdout] of the child. *)
Definition __enter__ (w : World) (self : Reader) (err : Stderr)
  : Result Reader * Stderr :=
  let err := LOG w [Repr.repr_str (cmd self)] err in
  match shlex_split w (cmd self) with
  | Raise e => (Raise e, err)
  | Hang => (Hang, err)
  | Ok argv =>
      match spawn w argv with
      | Raise e => (Raise e, err)
      | Hang => (Hang, err)
      | Ok child =>
          (Ok (mkReader (cmd self) (Some (mkPopen child None []))
                        (returncode self)), err)
      end
  end.

(** How [__exit__] ends.  [ExitReturn]: it returns [None], so that an
    exception in flight keeps propagating.  [ExitRaise]: it raises, which
    replaces an exception in flight.  [ExitHang]: it never returns. *)
Inductive ExitResult : Type :=
| ExitReturn (self : Reader)
| ExitRaise (e : PyExc) (self : Reader)
| ExitHang (self : Reader).

(** [__exit__(etype, evalue, etb)]; [inflight] is the exception raised in
    the with-block, [None] when the block ended normally. *)
Definition __exit__ (self : Reader) (inflight : option PyExc) : ExitResult :=
  match proc self with
  | None => ExitRaise (AttributeError "proc") self
  | Some p =>
      let waited :=
        match inflight with
        | None => Popen_wait p
        | Some _ => Ok p
        end in
      match waited with
      | Hang => ExitHang self
      | Raise e => ExitRaise e self
      | Ok p' =>
          let rc := popen_returncode p' in
          let self1 := mkReader (cmd self) (Some p') (Some rc) in
          if truthy_rc rc
          then
            let msg := match rc with
                       | Some z => Repr.repr_int z
                       | None => "None"
                       end ++ " <- " ++ Repr.repr_str (cmd self) in
            ExitRaise (Exception msg) self1
          else ExitReturn (mkReader (cmd self) None (Some rc))
      end
  end.

End ProcessReaderContext.

Module CapturedProcessReaderContext.

(** [readlines()]: nothing runs until the first [next]; then
    [communicate()] reads everything and the lines of [splitlines_iter]
    are handed out. *)
Definition readlines (self : Reader) (c : Consume) : Read :=
  match c with
  | Take O => mkRead [] self (Ok tt)
  | _ =>
      match proc self with
      | None => mkRead [] self (Raise (AttributeError "proc"))
      | Some p =>
          match Popen_communicate p with
          | Hang => mkRead [] self Hang
          | Raise e => mkRead [] self (Raise e)
          | Ok (output, p') =>
              let self' := mkReader (cmd self) (Some p') (returncode self) in
              match splitlines_iter output with
              | None => mkRead [] self' Hang
              | Some lines => mkRead (consumed c lines) self' (Ok tt)
              end
          end
      end
  end.

End CapturedProcessReaderContext.

Module StreamedProcessReaderContext.

(** [readlines()]: every line of [proc.stdout], right-stripped.  When the
    caller asks for more lines than a child that never exits has written,
    the read blocks. *)
Definition readlines (self : Reader) (c : Consume) : Read :=
  match c with
  | Take O => mkRead [] self (Ok tt)
  | _ =>
      match proc self with
      | None => mkRead [] self (Raise (AttributeError "proc"))
      | Some p =>
          let raw := stdout_lines (popen_child p) in
          let got := consumed c raw in
          let ops := (popen_ops p ++ map (fun _ => OpReadline) got)%list in
          let p' := mkPopen (popen_child p) (popen_returncode p) ops in
          let self' := mkReader (cmd self) (Some p') (returncode self) in
          mkRead (map PyStr.rstrip got) self'
                 (match child_exit (popen_child p) with
                  | Some _ => Ok tt
                  | None =>
                      if reaches_end c (List.length raw) then Hang else Ok tt
                  end)
      end
  end.

End StreamedProcessReaderContext.

(** The two concrete reader classes. *)
Inductive Variant : Type := Captured | Streamed.

Definition readlines (v : Variant) : Reader -> Consume -> Read :=
  match v with
  | Captured => CapturedProcessReaderContext.readlines
  | Streamed => StreamedProcessReaderContext.readlines
  end.

(** The caller's with-block: it consumes [reader.readlines()] as far as
    [body_consume] says and then raises [body_raise], if any. *)
Record Body : Type := mkBody {
  body_consume : Consume;
  body_raise : option PyExc
}.

(** How a [with reader: body] statement ends. *)
Inductive Outcome : Type :=
| Completes
| Raises (e : PyExc)
| Hangs.

Record Run : Type := mkRun {
  run_outcome : Outcome;
  run_lines : list string;
  run_reader : Reader;
  run_stderr : Stderr
}.

(** [reader = Context(cmd)] followed by [with reader: body]. *)
Definition with_reader (v : Variant) (w : World) (command : string)
    (body : Body) (err : Stderr) : Run :=
  let r0 := ProcessReaderContext.__init__ command in
  match ProcessReaderContext.__enter__ w r0 err with
  | (Raise e, err1) => mkRun (Raises e) [] r0 err1
  | (Hang, err1) => mkRun Hangs [] r0 err1
  | (Ok r1, err1) =>
      let rd := readlines v r1 (body_consume body) in
      let r2 := read_reader rd in
      match read_end rd with
      | Hang => mkRun Hangs (read_lines rd) r2 err1
      | ended =>
          let inflight :=
            match ended with
            | Raise e => Some e
            | _ => body_raise body
            end in
          match ProcessReaderContext.__exit__ r2 inflight with
          | ProcessReaderContext.ExitReturn r3 =>
              mkRun (match inflight with
                     | Some e => Raises e
                     | None => Completes
                     end) (read_lines rd) r3 err1
          | ProcessReaderContext.ExitRaise e r3 =>
              mkRun (Raises e) (read_lines rd) r3 err1
          | ProcessReaderContext.ExitHang r3 =>
              mkRun Hangs (read_lines rd) r3 err1
          end
      end
  end.

(** ** The FOFN validator *)

Record FileStat : Type := mkStat {
  st_isreg : bool;
  st_size : Z
}.

(** The operating system and the rest of the package, as far as the
    validator calls them: the [os.path] functions, [os.stat] (following
    links, [None] for a path that does not exist), [open(fn).read()] and
    [falcon_kit.io.deserialize], which reads a JSON or msgpack file and
    raises on any other. *)
Record OS : Type := mkOS {
  path_realpath : string -> string;
  path_dirname : string -> string;
  path_normpath : string -> string;
  path_relpath : string -> string;
  path_join : string -> string -> string;
  path_isabs : string -> bool;
  os_stat : string -> option FileStat;
  read_file : string -> Result string;
  deserialize : string -> Result (list string)
}.

Definition OSError (fn : string) : PyExc :=
  mkExc "FileNotFoundError" [PyInt 2; PyStr "No such file or directory"]
        [("filename", PyStr fn)].

(** [os.path.isfile(fn)] *)
Definition path_isfile (os : OS) (fn : string) : bool :=
  match os_stat os fn with
  | Some st => st_isreg st
  | None => false
  end.

Definition filesize (os : OS) (fn : string) : Result Z :=
  match os_stat os fn with
  | Some st => Ok (st_size st)
  | None => Raise (OSError fn)
  end.

(** What a generator comes to when it is run to its end: the values it
    yields, and whether it then stops or raises. *)
Record Gen (A : Type) : Type := mkGen {
  gen_yields : list A;
  gen_end : Result unit
}.
Arguments mkGen {A} gen_yields gen_end.
Arguments gen_yields {A} g.
Arguments gen_end {A} g.

Definition gen_cons {A : Type} (a : A) (g : Gen A) : Gen A :=
  mkGen (a :: gen_yields g) (gen_end g).

(** The path an entry [fn] stands for. *)
Definition resolved (os : OS) (dirname fn : string) : string :=
  if path_isabs os fn then fn
  else path_normpath os (path_relpath os (path_join os dirname fn)).

(** The [for fn in fns] loop of [yield_validated_fns]. *)
Fixpoint validate_each (os : OS) (dirname : string) (fns : list string)
  : Gen string :=
  match fns with
  | [] => mkGen [] (Ok tt)
  | fn :: rest =>
      if PyStr.is_empty fn then mkGen [] (Raise (AssertionError None))
      else
        let fn := resolved os dirname fn in
        if negb (path_isfile os fn)
        then mkGen [] (Raise (AssertionError
                 (Some ("File " ++ Repr.repr_str fn ++ " is not a file."))))
        else
          match filesize os fn with
          | Raise e => mkGen [] (Raise e)
          | Hang => mkGen [] Hang
          | Ok size =>
              if size =? 0
              then mkGen [] (Raise (AssertionError
                       (Some (Repr.repr_str fn ++ " has size "
                              ++ Repr.repr_int size))))
              else gen_cons fn (validate_each os dirname rest)
          end
  end.

(** The entries of the manifest: what [deserialize] returns, or, when it
    raises, the white-space separated words of the file. *)
Definition fofn_entries (os : OS) (fofn : string) : Result (list string) :=
  match deserialize os fofn with
  | Ok fns => Ok fns
  | Hang => Hang
  | Raise _ =>
      match read_file os fofn with
      | Ok text => Ok (PyStr.split_ws (PyStr.strip text))
      | Raise e => Raise e
      | Hang => Hang
      end
  end.

Definition yield_validated_fns (os : OS) (fofn : string) (err : Stderr)
  : Gen string * Stderr :=
  let dirname :=
    path_normpath os (path_dirname os (path_realpath os fofn)) in
  match fofn_entries os fofn with
  | Raise e => (mkGen [] (Raise e), err)
  | Hang => (mkGen [] Hang, err)
  | Ok fns =>
      let g := validate_each os dirname fns in
      match gen_end g with
      | Raise _ =>
          let msg := "Failed to validate FOFN " ++ Repr.repr_str fofn
                     ++ String PyStr.NL "" in
          (g, (err ++ [msg])%list)
      | _ => (g, err)
      end
  end.

(** [list(gen)]: the list of what was yielded, unless the generator
    raises. *)
Definition list_of_gen {A : Type} (g : Gen A) : Result (list A) :=
  match gen_end g with
  | Ok _ => Ok (gen_yields g)
  | Raise e => Raise e
  | Hang => Hang
  end.

Definition validated_fns (os : OS) (fofn : string) (err : Stderr)
  : Result (list string) * Stderr :=
  let (g, err') := yield_validated_fns os fofn err in
  (list_of_gen g, err').

(** ** Vocabulary of the statements *)

(** The text made of the lines [ls], each followed by a newline. *)
Fixpoint terminated (ls : list string) : string :=
  match ls with
  | [] => ""
  | l :: rest => l ++ String PyStr.NL (terminated rest)
  end.

(** The last line of a text that is not closed by a newline, as a list:
    nothing when the text ends at a newline (or is empty). *)
Definition fragment (f : string) : list string :=
  if PyStr.is_empty f then [] else [f].

(** A text read as newline-terminated lines followed by an unterminated
    rest. *)
Fixpoint cut_lines (s : string) : list string * string :=
  match s with
  | EmptyString => ([], "")
  | String c s' =>
      let (ls, f) := cut_lines s' in
      if Ascii.eqb c PyStr.NL then ("" :: ls, f)
      else match ls with
           | [] => ([], String c f)
           | l :: ls' => (String c l :: ls', f)
           end
  end.

Definition no_nl (s : string) : Prop := PyStr.has_nl s = false.

(** The one-character string ['\n']. *)
Definition nl : string := String PyStr.NL "".

(** [s] without its final newline, if it has one. *)
Fixpoint chomp (s : string) : string :=
  match s with
  | EmptyString => EmptyString
  | String c EmptyString => if Ascii.eqb c PyStr.NL then EmptyString else s
  | String c s' => String c (chomp s')
  end.

(** Whether the values an exception object holds, in [args] or as
    attributes, include the integer [z], or the string [s]. *)
Definition exc_values (e : PyExc) : list PyVal :=
  (exc_args e ++ map snd (exc_attrs e))%list.

Definition carries_int (e : PyExc) (z : Z) : bool :=
  existsb (fun v => match v with PyInt z' => z =? z' | _ => false end)
          (exc_values e).

Definition carries_str (e : PyExc) (s : string) : bool :=
  existsb (fun v => match v with PyStr s' => String.eqb s s' | _ => false end)
          (exc_values e).

(** The message of the exception that [__exit__] raises. *)
Definition failure_message (rc : Z) (command : string) : string :=
  Repr.repr_int rc ++ " <- " ++ Repr.repr_str command.

(** A world with one command: [shlex.split] gives its argument vector
    [argv], and the program it starts writes [out] and exits with
    [status]. *)
Definition single_program (argv : list string) (out : string)
    (status : option Z) : World :=
  mkWorld 1000 (fun _ => Ok argv) (fun _ => Ok (mkChild out status)).

Definition ValueError (msg : string) : PyExc :=
  mkExc "ValueError" [PyStr msg] [].

(** The reader right after [__enter__] has started [child]. *)
Definition entered (command : string) (child : Child) : Reader :=
  mkReader command (Some (mkPopen child None [])) None.

(** One line of the log, as [write_with_pid] formats it. *)
Definition log_line (w : World) (text : string) : string :=
  "[" ++ Repr.repr_int (getpid w) ++ "]" ++ text ++ nl.

(** The directory against which [yield_validated_fns] reads the entries
    that are not absolute. *)
Definition fofn_dir (os : OS) (fofn : string) : string :=
  path_normpath os (path_dirname os (path_realpath os fofn)).

(** An entry that passes: it is not empty and the path it stands for is a
    regular file of non-zero size. *)
Definition entry_ok (os : OS) (dirname fn : string) : bool :=
  negb (PyStr.is_empty fn)
  && match os_stat os (resolved os dirname fn) with
     | Some st => st_isreg st && negb (st_size st =? 0)
     | None => false
     end.

(** A small file system: the directory [/data] with the manifest
    [in.fofn], the regular files [a.fa] (10 bytes) and [b.fa] (empty) and
    the directory [sub].  No file is JSON or msgpack. *)
Definition starts_with_slash (s : string) : bool :=
  match s with
  | String c _ => Ascii.eqb c "/"%char
  | EmptyString => false
  end.

Definition data_os (manifest : string) : OS :=
  mkOS (fun fn => fn)
       (fun _ => "/data")
       (fun fn => fn)
       (fun fn => fn)
       (fun a b => a ++ "/" ++ b)
       starts_with_slash
       (fun fn =>
          if String.eqb fn "/data/a.fa" then Some (mkStat true 10)
          else if String.eqb fn "/data/b.fa" then Some (mkStat true 0)
          else if String.eqb fn "/data/sub" then Some (mkStat false 4096)
          else if String.eqb fn "/data/in.fofn" then Some (mkStat true 1)
          else None)
       (fun fn =>
          if String.eqb fn "/data/in.fofn" then Ok manifest
          else Raise (OSError fn))
       (fun _ => Raise (Exception "Unknown extension"))
.

(** ** More of the module *)

(** The characters at which [str.splitlines] ends a line, among the code
    points below 256: LF, VT, FF, CR, FS, GS, RS and NEL. *)
Definition is_linebreak (c : ascii) : bool :=
  let n := nat_of_ascii c in
  ((10 <=? n) && (n <=? 13) || (28 <=? n) && (n <=? 30) || (n =? 133))%nat.

Definition CR : ascii := "013"%char.

(** [s.splitlines()]: the lines of [s] without their terminators, where a
    CR followed by LF is one terminator; [after_cr] tells that the
    character before [s] was a CR. *)
Fixpoint splitlines_from (after_cr : bool) (s : string) : list string :=
  match s with
  | EmptyString => []
  | String c s' =>
      if after_cr && Ascii.eqb c PyStr.NL then splitlines_from false s'
      else if is_linebreak c
      then "" :: splitlines_from (Ascii.eqb c CR) s'
      else match splitlines_from false s' with
           | [] => [String c ""]
           | l :: ls => String c l :: ls
           end
  end.

Definition str_splitlines (s : string) : list string :=
  splitlines_from false s.

Definition slurplines (w : World) (cmd : string) (err : Stderr)
  : Result (list string) * Stderr :=
  match syscall w cmd err with
  | (Ok output, err') => (Ok (str_splitlines output), err')
  | (Raise e, err') => (Raise e, err')
  | (Hang, err') => (Hang, err')
  end.

(** [os.system(call)], as far as [system] uses it: the status it returns,
    or the way it fails to return. *)
Definition system (w : World) (os_system : string -> Result Z)
    (call : string) (check : bool) (err : Stderr) : Result Z * Stderr :=
  let err := LOG w ["DEPRECATED falcon_kit.util.io.system()"] err in
  let err := LOG w ["$(" ++ Repr.repr_str call ++ ")"] err in
  match os_system call with
  | Raise e => (Raise e, err)
  | Hang => (Hang, err)
  | Ok rc =>
      let msg := "Call " ++ Repr.repr_str call ++ " returned "
                 ++ Repr.repr_int rc ++ "." in
      if negb (rc =? 0)
      then
        let err := LOG w ["WARNING: " ++ msg] err in
        if check then (Raise (Exception msg), err) else (Ok rc, err)
      else (Ok rc, LOG w [msg] err)
  end.

(** The reader over a string that is already there. *)
Record DataReader : Type := mkDataReader {
  data : string;
  data_returncode : option Z
}.

Module DataReaderContext.

Definition __init__ (data : string) : DataReader := mkDataReader data None.

(** The lines that [readlines()] yields, in order. *)
Definition readlines (self : DataReader) : list string :=
  let output := PyStr.strip (data self) in
  str_splitlines output.

Definition __enter__ (self : DataReader) : DataReader := self.

Definition __exit__ (self : DataReader) (inflight : option PyExc)
  : DataReader :=
  mkDataReader (data self) (Some 0).

End DataReaderContext.

(** ** [TemporaryDirectory] *)

(** The file system, as far as the helper touches it: the paths that
    exist.  [under dir path] tells that [path] is [dir] or lies below
    it. *)
Definition under (dir path : string) : bool :=
  String.eqb dir path || String.prefix (dir ++ "/") path.

(** [shutil.rmtree(name)]: removes [name] and everything below it; raises
    when [name] does not exist. *)
Definition rmtree (fs : list string) (name : string) : Result (list string) :=
  if existsb (String.eqb name) fs
  then Ok (filter (fun path => negb (under name path)) fs)
  else Raise (OSError name).

(** [with TemporaryDirectory() as name: block].  [name] is the directory
    that [tempfile.mkdtemp()] makes; the block is given the name and the
    file system and leaves an outcome and a file system. *)
Definition TemporaryDirectory (w : World) (name : string)
    (block : string -> list string -> Outcome * list string)
    (fs : list string) (err : Stderr) : Outcome * list string * Stderr :=
  let fs := name :: fs in
  let err := LOG w ["TemporaryDirectory=" ++ Repr.repr_str name] err in
  let (ended, fs) := block name fs in
  match ended with
  | Hangs => (Hangs, fs, err)
  | _ =>
      match rmtree fs name with
      | Ok fs' => (ended, fs', err)
      | Raise e => (Raises e, fs, err)
      | Hang => (Hangs, fs, err)
      end
  end.

(** ** More vocabulary *)

(** The number of newlines in a text. *)
Fixpoint count_nl (s : string) : nat :=
  match s with
  | EmptyString => O
  | String c s' =>
      if Ascii.eqb c PyStr.NL then S (count_nl s') else count_nl s'
  end.

(** Whether a text holds a line-break character other than the newline. *)
Fixpoint has_other_break (s : string) : bool :=
  match s with
  | EmptyString => false
  | String c s' =>
      (is_linebreak c && negb (Ascii.eqb c PyStr.NL)) || has_other_break s'
  end.

Fixpoint has_linebreak (s : string) : bool :=
  match s with
  | EmptyString => false
  | String c s' => is_linebreak c || has_linebreak s'
  end.

Fixpoint has_space (s : string) : bool :=
  match s with
  | EmptyString => false
  | String c s' => PyStr.isspace c || has_space s'
  end.

(** The exception that [__exit__] raises in place of the caller's [e], if
    it does: the captured reader, once advanced, has recorded the status
    [rc]. *)
Definition exception_after (v : Variant) (c : Consume) (rc : Z)
    (command : string) (e : PyExc) : PyExc :=
  match v, c with
  | Captured, Take O => e
  | Captured, _ =>
      if rc =? 0 then e else Exception (failure_message rc command)
  | Streamed, _ => e
  end.

(** A path that is a regular file of non-zero size. *)
Definition valid_file (os : OS) (fn : string) : bool :=
  match os_stat os fn with
  | Some st => st_isreg st && negb (st_size st =? 0)
  | None => false
  end.

(** ** The text-mode pipe *)

(** [Popen] and [check_output] are called with [encoding='ascii'] (and
    [universal_newlines=True]): what the module reads is not the bytes the
    program writes but their decoding.  A byte above 127 makes the read
    raise [UnicodeDecodeError]; CR LF and a lone CR are read as one
    newline. *)
Fixpoint is_ascii (raw : string) : bool :=
  match raw with
  | EmptyString => true
  | String c raw' => (nat_of_ascii c <? 128)%nat && is_ascii raw'
  end.

Fixpoint has_cr (s : string) : bool :=
  match s with
  | EmptyString => false
  | String c s' => Ascii.eqb c CR || has_cr s'
  end.

(** Universal newlines; [after_cr] tells that the character before [s]
    was a CR, whose newline is already written. *)
Fixpoint translate_from (after_cr : bool) (s : string) : string :=
  match s with
  | EmptyString => EmptyString
  | String c s' =>
      if after_cr && Ascii.eqb c PyStr.NL then translate_from false s'
      else if Ascii.eqb c CR then String PyStr.NL (translate_from true s')
      else String c (translate_from false s')
  end.

Definition translate_newlines (s : string) : string := translate_from false s.

(** The text that the pipe delivers for the bytes [raw]; [None] when
    reading them raises [UnicodeDecodeError]. *)
Definition pipe_text (raw : string) : option string :=
  if is_ascii raw then Some (translate_newlines raw) else None.

(** [reads_as raw child]: the program behind [child] writes the bytes
    [raw], and the pipe decodes them to the text [child_stdout child].
    No [child] stands for a program whose output does not decode. *)
Definition reads_as (raw : string) (child : Child) : Prop :=
  pipe_text raw = Some (child_stdout child).

(** * Properties *)

(** ** Strings *)

Section StringFacts.

Import PyStr.

Lemma append_assoc (a b c : string) : (a ++ b) ++ c = a ++ (b ++ c).
Proof. induction a as [|x a IH]; simpl; [reflexivity | now rewrite IH]. Qed.

Lemma append_nil_r (a : string) : a ++ "" = a.
Proof. induction a as [|x a IH]; simpl; [reflexivity | now rewrite IH]. Qed.

Lemma length_append (a b : string) :
  String.length (a ++ b) = (String.length a + String.length b)%nat.
Proof. induction a as [|x a IH]; simpl; [reflexivity | now rewrite IH]. Qed.

Lemma len_append (a b : string) : len (a ++ b) = len a + len b.
Proof. unfold len. rewrite length_append. lia. Qed.

Lemma len_nonneg (a : string) : 0 <= len a.
Proof. unfold len. lia. Qed.

Lemma len_zero_empty (a : string) : len a = 0 -> a = "".
Proof. destruct a; [reflexivity | unfold len; simpl; lia]. Qed.

Lemma drop_append (pre s : string) : drop (String.length pre) (pre ++ s) = s.
Proof.
  induction pre as [|x pre IH]; simpl; [destruct s; reflexivity | exact IH].
Qed.

Lemma take_append (l r : string) : take (String.length l) (l ++ r) = l.
Proof.
  induction l as [|x l IH]; simpl; [destruct r; reflexivity | now rewrite IH].
Qed.

Lemma take_all (l : string) : take (String.length l) l = l.
Proof. induction l as [|x l IH]; simpl; [reflexivity | now rewrite IH]. Qed.

Lemma find_offset_line (l r : string) :
  no_nl l -> find_offset NL (l ++ String NL r) = Some (String.length l).
Proof.
  unfold no_nl. induction l as [|x l IH]; simpl; intros H.
  - reflexivity.
  - apply orb_false_iff in H. destruct H as [Hx Hl].
    rewrite Hx, (IH Hl). reflexivity.
Qed.

Lemma find_offset_none (f : string) : no_nl f -> find_offset NL f = None.
Proof.
  unfold no_nl. induction f as [|x f IH]; simpl; intros H.
  - reflexivity.
  - apply orb_false_iff in H. destruct H as [Hx Hf].
    rewrite Hx, (IH Hf). reflexivity.
Qed.

(** [find] from the start of a line reaches the newline that ends it. *)
Lemma find_line (pre l r : string) :
  no_nl l ->
  find (pre ++ l ++ String NL r) NL (len pre) = len pre + len l.
Proof.
  intros H. unfold find.
  pose proof (len_nonneg pre) as Hp.
  destruct (len pre <? 0) eqn:E; [apply Z.ltb_lt in E; lia|].
  rewrite len_append.
  destruct (len pre + len (l ++ String NL r) <? len pre) eqn:E2.
  - apply Z.ltb_lt in E2. pose proof (len_nonneg (l ++ String NL r)). lia.
  - unfold len at 1. rewrite Nat2Z.id, drop_append, (find_offset_line _ _ H).
    reflexivity.
Qed.

(** [find] from the start of an unterminated rest finds nothing. *)
Lemma find_rest (pre f : string) :
  no_nl f -> find (pre ++ f) NL (len pre) = -1.
Proof.
  intros H. unfold find.
  pose proof (len_nonneg pre) as Hp.
  destruct (len pre <? 0) eqn:E; [apply Z.ltb_lt in E; lia|].
  destruct (len (pre ++ f) <? len pre) eqn:E2; [reflexivity|].
  unfold len at 1. rewrite Nat2Z.id, drop_append, (find_offset_none _ H).
  reflexivity.
Qed.

Lemma adjust_index_inside (i n : Z) : 0 <= i <= n -> adjust_index i n = i.
Proof.
  intros H. unfold adjust_index.
  destruct (i <? 0) eqn:E; [apply Z.ltb_lt in E; lia | lia].
Qed.

Lemma slice_line (pre l r : string) :
  slice (pre ++ l ++ r) (len pre) (len pre + len l) = l.
Proof.
  unfold slice.
  pose proof (len_nonneg pre). pose proof (len_nonneg l).
  pose proof (len_nonneg r).
  rewrite !adjust_index_inside by (rewrite !len_append; lia).
  replace (len pre + len l - len pre) with (len l) by lia.
  unfold len. rewrite !Nat2Z.id, drop_append, take_append. reflexivity.
Qed.

Lemma slice_from_rest (pre f : string) : slice_from (pre ++ f) (len pre) = f.
Proof.
  unfold slice_from, slice.
  pose proof (len_nonneg pre). pose proof (len_nonneg f).
  rewrite !adjust_index_inside by (rewrite !len_append; lia).
  rewrite len_append.
  replace (len pre + len f - len pre) with (len f) by lia.
  unfold len. rewrite !Nat2Z.id, drop_append, take_all. reflexivity.
Qed.

End StringFacts.

(** ** [splitlines_iter] *)

Section Splitlines.

Import PyStr.

(** The loop, started at the beginning of a line, yields the terminated
    lines and then the unterminated rest if there is one. *)
Lemma splitlines_loop_lines (ls : list string) :
  forall (pre f : string) (fuel : nat),
    Forall no_nl ls -> no_nl f -> (List.length ls < fuel)%nat ->
    splitlines_loop fuel (pre ++ terminated ls ++ f) (len pre - 1)
    = Some (ls ++ fragment f)%list.
Proof.
  induction ls as [|l ls IH]; intros pre f fuel Hls Hf Hfuel.
  - destruct fuel as [|fuel]; [simpl in Hfuel; lia|].
    simpl. replace (len pre - 1 + 1) with (len pre) by lia.
    rewrite (find_rest _ _ Hf). simpl.
    rewrite len_append. unfold fragment.
    destruct f as [|c f]; simpl.
    + replace (len pre =? len pre + len "") with true; [reflexivity|].
      symmetry. apply Z.eqb_eq. unfold len. simpl. lia.
    + replace (len pre =? len pre + len (String c f)) with false.
      * rewrite slice_from_rest. reflexivity.
      * symmetry. apply Z.eqb_neq. unfold len. simpl. lia.
  - destruct fuel as [|fuel]; [simpl in Hfuel; lia|].
    apply Forall_cons_iff in Hls. destruct Hls as [Hl Hls'].
    assert (Htext : pre ++ terminated (l :: ls) ++ f
                    = pre ++ l ++ String NL (terminated ls ++ f)).
    { simpl. rewrite append_assoc. reflexivity. }
    rewrite Htext.
    cbn [splitlines_loop]. replace (len pre - 1 + 1) with (len pre) by lia.
    rewrite (find_line _ _ _ Hl).
    pose proof (len_nonneg pre). pose proof (len_nonneg l).
    destruct (len pre + len l <? 0) eqn:E; [apply Z.ltb_lt in E; lia|].
    rewrite slice_line.
    assert (Hnext : pre ++ l ++ String NL (terminated ls ++ f)
                    = (pre ++ l ++ String NL "") ++ terminated ls ++ f).
    { rewrite !append_assoc. reflexivity. }
    assert (Hidx : len pre + len l = len (pre ++ l ++ String NL "") - 1).
    { rewrite !len_append. unfold len at 5. simpl. lia. }
    rewrite Hnext, Hidx, (IH _ f fuel Hls' Hf); [reflexivity|].
    simpl in Hfuel. lia.
Qed.

Lemma cut_lines_spec (s : string) :
  forall ls f, cut_lines s = (ls, f) ->
    s = terminated ls ++ f /\ Forall no_nl ls /\ no_nl f.
Proof.
  induction s as [|c s IH]; simpl; intros ls f H.
  - inversion H; subst. repeat split; constructor.
  - destruct (cut_lines s) as [ls0 f0].
    destruct (IH ls0 f0 eq_refl) as (Hs & Hls & Hf).
    destruct (Ascii.eqb c NL) eqn:E.
    + apply Ascii.eqb_eq in E. inversion H; subst c ls f.
      repeat split; [simpl; now rewrite <- Hs | | exact Hf].
      constructor; [reflexivity | exact Hls].
    + destruct ls0 as [|l ls']; inversion H; subst ls f.
      * simpl in Hs. subst s. repeat split; [constructor|].
        unfold no_nl. simpl. rewrite E. exact Hf.
      * apply Forall_cons_iff in Hls. destruct Hls as [Hl Hls'].
        repeat split; [rewrite Hs; reflexivity | | exact Hf].
        constructor; [|exact Hls'].
        unfold no_nl. simpl. rewrite E. exact Hl.
Qed.

Lemma terminated_length (ls : list string) (f : string) :
  (List.length ls <= String.length (terminated ls ++ f))%nat.
Proof.
  induction ls as [|l ls IH]; simpl; [lia|].
  rewrite append_assoc, length_append. simpl. lia.
Qed.

(** What [splitlines_iter] yields for a text given by its lines. *)
Lemma splitlines_iter_lines (ls : list string) (f : string) :
  Forall no_nl ls -> no_nl f ->
  splitlines_iter (terminated ls ++ f) = Some (ls ++ fragment f)%list.
Proof.
  intros Hls Hf. unfold splitlines_iter.
  change (-1) with (len "" - 1).
  change (terminated ls ++ f) with ("" ++ terminated ls ++ f) at 2.
  apply splitlines_loop_lines; try assumption.
  pose proof (terminated_length ls f). lia.
Qed.

(** [splitlines_iter] returns for every text. *)
Lemma splitlines_iter_total (t : string) :
  splitlines_iter t
  = Some (fst (cut_lines t) ++ fragment (snd (cut_lines t)))%list.
Proof.
  destruct (cut_lines t) as [ls f] eqn:E.
  destruct (cut_lines_spec t ls f E) as (Ht & Hls & Hf).
  simpl. rewrite Ht at 1. apply splitlines_iter_lines; assumption.
Qed.

Lemma join_lines_rest (ls : list string) (f : string) :
  join nl (ls ++ [f])%list = terminated ls ++ f.
Proof.
  induction ls as [|l ls IH]; [reflexivity|].
  change ((l :: ls) ++ [f])%list with (l :: (ls ++ [f]))%list.
  cbn [join]. destruct (ls ++ [f])%list as [|x xs] eqn:E.
  - destruct ls; discriminate E.
  - rewrite IH. simpl. rewrite append_assoc. reflexivity.
Qed.

Lemma terminated_join (l : string) (ls : list string) :
  terminated (l :: ls) = join nl (l :: ls) ++ nl.
Proof.
  revert l. induction ls as [|x ls IH]; intros l.
  - reflexivity.
  - change (terminated (l :: x :: ls))
      with (l ++ String NL (terminated (x :: ls))).
    rewrite IH. cbn [join]. rewrite !append_assoc. reflexivity.
Qed.

Lemma append_char_inj (c : ascii) (a b : string) :
  a ++ String c "" = b ++ String c "" -> a = b.
Proof.
  revert b. induction a as [|x a IH]; intros [|y b] H; simpl in H.
  - reflexivity.
  - injection H as _ H. destruct b; discriminate H.
  - injection H as _ H. destruct a; discriminate H.
  - injection H as Hx H. subst y. f_equal. apply IH, H.
Qed.

Lemma ends_with_nl_append (a f : string) :
  f <> "" -> ends_with_nl (a ++ f) = ends_with_nl f.
Proof.
  intros Hf. induction a as [|x a IH]; [reflexivity|].
  simpl. destruct (a ++ f) eqn:E.
  - destruct a; [simpl in E; contradiction | discriminate E].
  - exact IH.
Qed.

Lemma no_nl_not_ending (f : string) : no_nl f -> ends_with_nl f = false.
Proof.
  unfold no_nl. induction f as [|x f IH]; [reflexivity|].
  simpl. intros H. apply orb_false_iff in H. destruct H as [Hx Hf].
  destruct f; [exact Hx | apply IH, Hf].
Qed.

Lemma ends_with_nl_last (a : string) : ends_with_nl (a ++ nl) = true.
Proof. rewrite ends_with_nl_append; [reflexivity | discriminate]. Qed.

(** C5: [splitlines_iter] has the trailing-boundary behaviour of
    [splitlines]: it maps the empty text to no line, ["a\nb"] and
    ["a\nb\n"] to the lines a, b, and ["a\nb\n\n"] to a, b and an empty
    line; in general, for a text made of newline-terminated lines [ls]
    followed by a rest [f] without newline, a non-empty [f] is yielded as
    the final line, and when the text ends at the newline of its last line
    no empty entry is added after [ls]. *)
Theorem C5_splitlines_iter_boundaries (ls : list string) (f : string) :
  Forall no_nl ls -> no_nl f ->
  splitlines_iter "" = Some []
  /\ splitlines_iter ("a" ++ nl ++ "b") = Some ["a"; "b"]
  /\ splitlines_iter ("a" ++ nl ++ "b" ++ nl) = Some ["a"; "b"]
  /\ splitlines_iter ("a" ++ nl ++ "b" ++ nl ++ nl) = Some ["a"; "b"; ""]
  /\ (f <> "" ->
      splitlines_iter (terminated ls ++ f) = Some (ls ++ [f])%list)
  /\ splitlines_iter (terminated ls) = Some ls.
Proof.
  intros Hls Hf.
  split; [reflexivity|]. split; [reflexivity|].
  split; [reflexivity|]. split; [reflexivity|]. split.
  - intros Hne. rewrite (splitlines_iter_lines ls f Hls Hf).
    unfold fragment. destruct f; [contradiction | reflexivity].
  - pose proof (splitlines_iter_lines ls "" Hls eq_refl) as H.
    rewrite append_nil_r in H. rewrite H. unfold fragment. simpl.
    rewrite app_nil_r. reflexivity.
Qed.

(** C5 at the lines x, an empty line and [y z], with and without the
    unterminated rest [tail]. *)
Lemma C5_splitlines_iter_boundaries_witness :
  Forall no_nl ["x"; ""; "y z"] /\ no_nl "tail"
  /\ splitlines_iter (terminated ["x"; ""; "y z"] ++ "tail")
     = Some ["x"; ""; "y z"; "tail"]
  /\ splitlines_iter (terminated ["x"; ""; "y z"]) = Some ["x"; ""; "y z"].
Proof.
  assert (H1 : Forall no_nl ["x"; ""; "y z"])
    by (repeat constructor).
  assert (H2 : no_nl "tail") by reflexivity.
  split; [exact H1|]. split; [exact H2|].
  destruct (C5_splitlines_iter_boundaries ["x"; ""; "y z"] "tail" H1 H2)
    as (_ & _ & _ & _ & Hrest & Hlines).
  split; [apply Hrest; discriminate | exact Hlines].
Defined.

(** C10: joining the lines of [splitlines_iter(t)] with one newline
    between consecutive lines gives [t] back when [t] is empty or does not
    end in a newline, and gives [t] without its final newline when [t]
    ends in one. *)
Theorem C10_join_roundtrip (t : string) :
  exists ls : list string,
    splitlines_iter t = Some ls
    /\ (ends_with_nl t = false -> join nl ls = t)
    /\ (forall t' : string, t = t' ++ nl -> join nl ls = t').
Proof.
  destruct (cut_lines t) as [ls f] eqn:E.
  destruct (cut_lines_spec t ls f E) as (Ht & Hls & Hf).
  exists (ls ++ fragment f)%list. split.
  - rewrite Ht at 1. apply splitlines_iter_lines; assumption.
  - destruct f as [|c f].
    + unfold fragment. simpl. rewrite app_nil_r.
      rewrite append_nil_r in Ht. destruct ls as [|l ls].
      * simpl in Ht. subst t. split; [reflexivity|].
        intros t' H. destruct t'; discriminate H.
      * rewrite terminated_join in Ht. split.
        -- intros H. rewrite Ht, ends_with_nl_last in H. discriminate H.
        -- intros t' H. rewrite Ht in H. unfold nl in H.
           apply append_char_inj in H. exact H.
    + unfold fragment. simpl is_empty. cbv iota.
      rewrite join_lines_rest. split.
      * intros _. symmetry. exact Ht.
      * intros t' H.
        assert (Hend : ends_with_nl t = false).
        { rewrite Ht, ends_with_nl_append by discriminate.
          apply no_nl_not_ending, Hf. }
        rewrite H, ends_with_nl_last in Hend. discriminate Hend.
Qed.

(** C10 at a text that does not end in a newline and at one that ends in
    two. *)
Lemma C10_join_roundtrip_witness :
  ends_with_nl ("a" ++ nl ++ nl ++ "b") = false
  /\ ("a" ++ nl ++ "b" ++ nl ++ nl) = ("a" ++ nl ++ "b" ++ nl) ++ nl
  /\ (exists ls, splitlines_iter ("a" ++ nl ++ nl ++ "b") = Some ls
                 /\ join nl ls = "a" ++ nl ++ nl ++ "b")
  /\ (exists ls, splitlines_iter ("a" ++ nl ++ "b" ++ nl ++ nl) = Some ls
                 /\ join nl ls = "a" ++ nl ++ "b" ++ nl).
Proof.
  split; [reflexivity|]. split; [reflexivity|]. split.
  - destruct (C10_join_roundtrip ("a" ++ nl ++ nl ++ "b"))
      as (ls & Hrun & Hkeep & _).
    exists ls. split; [exact Hrun | apply Hkeep; reflexivity].
  - destruct (C10_join_roundtrip ("a" ++ nl ++ "b" ++ nl ++ nl))
      as (ls & Hrun & _ & Hcut).
    exists ls. split; [exact Hrun | apply Hcut; reflexivity].
Defined.

End Splitlines.

(** ** The reader life cycle *)

Section Lifecycle.

Import PyStr ProcessReaderContext.

Variable w : World.
Variables (command : string) (argv : list string) (child : Child).
Hypothesis Hsplit : shlex_split w command = Ok argv.
Hypothesis Hspawn : spawn w argv = Ok child.

Lemma enter_spawns (err : Stderr) :
  __enter__ w (__init__ command) err
  = (Ok (entered command child), LOG w [Repr.repr_str command] err).
Proof.
  unfold __enter__, __init__, entered. simpl. rewrite Hsplit, Hspawn.
  reflexivity.
Qed.

End Lifecycle.

Section Reading.

Import PyStr ProcessReaderContext.

(** Reading from a child that exits never blocks; it leaves the command
    and the child in place, and leaves [proc.returncode] alone or sets it
    to the exit status. *)
Lemma readlines_exited (v : Variant) (self : Reader) (p : Popen)
    (c : Consume) (rc : Z) :
  proc self = Some p -> child_exit (popen_child p) = Some rc ->
  read_end (readlines v self c) = Ok tt
  /\ cmd (read_reader (readlines v self c)) = cmd self
  /\ exists p', proc (read_reader (readlines v self c)) = Some p'
       /\ popen_child p' = popen_child p
       /\ (popen_returncode p' = popen_returncode p
           \/ popen_returncode p' = Some rc).
Proof.
  intros Hp Hrc.
  assert (Hzero : read_end (mkRead [] self (Ok tt)) = Ok tt
            /\ cmd (read_reader (mkRead [] self (Ok tt))) = cmd self
            /\ exists p', proc (read_reader (mkRead [] self (Ok tt))) = Some p'
                 /\ popen_child p' = popen_child p
                 /\ (popen_returncode p' = popen_returncode p
                     \/ popen_returncode p' = Some rc)).
  { simpl. repeat split. exists p. auto. }
  destruct v; unfold readlines.
  - unfold CapturedProcessReaderContext.readlines.
    destruct c as [[|k]|]; [exact Hzero| |];
      rewrite Hp; unfold Popen_communicate; rewrite Hrc;
      rewrite splitlines_iter_total; simpl; repeat split;
      eexists; simpl; eauto.
  - unfold StreamedProcessReaderContext.readlines.
    destruct c as [[|k]|]; [exact Hzero| |];
      rewrite Hp; simpl; rewrite Hrc; repeat split;
      eexists; simpl; eauto.
Qed.

(** [__exit__] after a block that ended normally, for a child that
    exited with a non-zero status: it raises, and [proc] stays set. *)
Lemma exit_clean_failure (self : Reader) (p : Popen) (rc : Z) :
  proc self = Some p -> child_exit (popen_child p) = Some rc -> rc <> 0 ->
  __exit__ self None
  = ExitRaise (Exception (failure_message rc (cmd self)))
      (mkReader (cmd self)
         (Some (mkPopen (popen_child p) (Some rc) (popen_ops p ++ [OpWait])))
         (Some (Some rc))).
Proof.
  intros Hp Hrc Hnz. unfold __exit__, Popen_wait. rewrite Hp, Hrc. simpl.
  destruct (rc =? 0) eqn:E; [apply Z.eqb_eq in E; contradiction|].
  reflexivity.
Qed.

(** [__exit__] after a block that ended normally, for a child that
    exited with status 0: it returns and [proc] is deleted. *)
Lemma exit_clean_success (self : Reader) (p : Popen) :
  proc self = Some p -> child_exit (popen_child p) = Some 0 ->
  __exit__ self None = ExitReturn (mkReader (cmd self) None (Some (Some 0))).
Proof.
  intros Hp Hrc. unfold __exit__, Popen_wait. rewrite Hp, Hrc. reflexivity.
Qed.

(** [__exit__] with an exception in flight does not wait; when
    [proc.returncode] is unset or zero it returns, so that the exception
    in flight propagates. *)
Lemma exit_inflight_quiet (self : Reader) (p : Popen) (e : PyExc) :
  proc self = Some p -> truthy_rc (popen_returncode p) = false ->
  __exit__ self (Some e)
  = ExitReturn (mkReader (cmd self) None (Some (popen_returncode p))).
Proof.
  intros Hp Hrc. unfold __exit__. rewrite Hp, Hrc. reflexivity.
Qed.

(** [__exit__] with an exception in flight, when [proc.returncode] already
    holds a non-zero status: the status is checked all the same and the
    raised [Exception] replaces the one in flight. *)
Lemma exit_inflight_failure (self : Reader) (p : Popen) (e : PyExc) (rc : Z) :
  proc self = Some p -> popen_returncode p = Some rc -> rc <> 0 ->
  __exit__ self (Some e)
  = ExitRaise (Exception (failure_message rc (cmd self)))
      (mkReader (cmd self) (Some p) (Some (Some rc))).
Proof.
  intros Hp Hrc Hnz. unfold __exit__. rewrite Hp, Hrc. simpl.
  destruct (rc =? 0) eqn:E; [apply Z.eqb_eq in E; contradiction|].
  reflexivity.
Qed.

End Reading.

Section Scope.

Import PyStr ProcessReaderContext.

Variable w : World.
Variables (command : string) (argv : list string) (child : Child).
Hypothesis Hsplit : shlex_split w command = Ok argv.
Hypothesis Hspawn : spawn w argv = Ok child.

(** A scope whose block ends normally, around a child that exits with a
    non-zero status: [__exit__] raises [Exception] with the message made
    of the status and the command, and [proc] is still set afterwards. *)
Lemma scope_clean_failure (v : Variant) (c : Consume) (rc : Z) (err : Stderr) :
  child_exit child = Some rc -> rc <> 0 ->
  run_outcome (with_reader v w command (mkBody c None) err)
  = Raises (Exception (failure_message rc command))
  /\ proc (run_reader (with_reader v w command (mkBody c None) err)) <> None.
Proof.
  intros Hrc Hnz. unfold with_reader.
  rewrite (enter_spawns w command argv child Hsplit Hspawn). cbv zeta.
  destruct (readlines_exited v (entered command child) (mkPopen child None [])
              c rc eq_refl Hrc) as (Hend & Hcmd & p' & Hp' & Hchild & _).
  simpl body_consume. rewrite Hend. simpl body_raise.
  simpl in Hchild. rewrite <- Hchild in Hrc.
  rewrite (exit_clean_failure _ p' rc Hp' Hrc Hnz), Hcmd. simpl.
  split; [reflexivity | discriminate].
Qed.

(** A scope whose block ends normally, around a child that exits with
    status 0: the statement completes and [proc] is deleted. *)
Lemma scope_clean_success (v : Variant) (c : Consume) (err : Stderr) :
  child_exit child = Some 0 ->
  run_outcome (with_reader v w command (mkBody c None) err) = Completes
  /\ proc (run_reader (with_reader v w command (mkBody c None) err)) = None.
Proof.
  intros Hrc. unfold with_reader.
  rewrite (enter_spawns w command argv child Hsplit Hspawn). cbv zeta.
  destruct (readlines_exited v (entered command child) (mkPopen child None [])
              c 0 eq_refl Hrc) as (Hend & Hcmd & p' & Hp' & Hchild & _).
  simpl body_consume. rewrite Hend. simpl body_raise.
  simpl in Hchild. rewrite <- Hchild in Hrc.
  rewrite (exit_clean_success _ p' Hp' Hrc). simpl.
  split; reflexivity.
Qed.

(** The streamed reader never touches [proc.returncode], so an exception
    raised in the block after some lines were read propagates as it is,
    whatever the child does afterwards, and the child is not waited for. *)
Lemma streamed_exception_propagates (c : Consume) (e : PyExc) (err : Stderr) :
  let run := with_reader Streamed w command (mkBody c (Some e)) err in
  run_outcome run = Raises e /\ proc (run_reader run) = None
  \/ run_outcome run = Hangs.
Proof.
  unfold with_reader.
  rewrite (enter_spawns w command argv child Hsplit Hspawn). cbv zeta.
  simpl body_consume. simpl body_raise. unfold readlines, entered.
  unfold StreamedProcessReaderContext.readlines.
  destruct c as [[|k]|]; simpl.
  - left. split; reflexivity.
  - destruct (child_exit child); simpl.
    + left. split; reflexivity.
    + destruct (_ <? _)%nat; simpl;
        [right; reflexivity | left; split; reflexivity].
  - destruct (child_exit child); simpl.
    + left. split; reflexivity.
    + right. reflexivity.
Qed.

(** The captured reader reaps the child in [communicate()], so once a line
    has been asked for, [__exit__] checks the status even with an exception
    in flight, and its [Exception] replaces the caller's. *)
Lemma captured_exception_replaced (c : Consume) (e : PyExc) (rc : Z)
    (err : Stderr) :
  child_exit child = Some rc -> rc <> 0 -> c <> Take 0 ->
  run_outcome (with_reader Captured w command (mkBody c (Some e)) err)
  = Raises (Exception (failure_message rc command)).
Proof.
  intros Hrc Hnz Hc. unfold with_reader.
  rewrite (enter_spawns w command argv child Hsplit Hspawn). cbv zeta.
  simpl body_consume. simpl body_raise. unfold readlines, entered.
  unfold CapturedProcessReaderContext.readlines.
  assert (E : (rc =? 0) = false) by (apply Z.eqb_neq, Hnz).
  destruct c as [[|k]|]; [contradiction| |];
    simpl proc; unfold Popen_communicate; simpl popen_child;
    rewrite Hrc, splitlines_iter_total; unfold __exit__; simpl;
    rewrite E; reflexivity.
Qed.

End Scope.

(** C1, at a failing input: a captured reader around
    [grep -c x /dev/null], which writes the line [0] and exits with status
    1, in a block that takes the first line and raises [ValueError].
    [__exit__] does not wait, but it does check the status that
    [communicate()] recorded, and the statement ends with the [Exception]
    of the status check instead of the caller's [ValueError]. *)
Theorem C1_captured_exit_replaces_exception :
  let w := single_program ["grep"; "-c"; "x"; "/dev/null"] ("0" ++ nl)
                          (Some 1) in
  let run := with_reader Captured w "grep -c x /dev/null"
               (mkBody (Take 1) (Some (ValueError "stop"))) [] in
  run_outcome run = Raises (Exception "1 <- 'grep -c x /dev/null'")
  /\ run_outcome run <> Raises (ValueError "stop")
  /\ run_lines run = ["0"]
  /\ option_map popen_ops (proc (run_reader run)) = Some [OpCommunicate].
Proof.
  cbv zeta. split; [reflexivity|]. split; [discriminate|].
  split; reflexivity.
Qed.

(** C2, as stated, fails: for the command [false], which exits with
    status 1, both readers raise an [Exception] that holds one message
    string and neither the integer 1 nor the string [false]. *)
Lemma C2_counterexample :
  let e := Exception "1 <- 'false'" in
  let w := single_program ["false"] "" (Some 1) in
  run_outcome (with_reader Captured w "false" (mkBody Drain None) [])
  = Raises e
  /\ run_outcome (with_reader Streamed w "false" (mkBody Drain None) [])
     = Raises e
  /\ carries_int e 1 = false /\ carries_str e "false" = false.
Proof. cbv zeta. repeat split; reflexivity. Qed.

(** C2, amended: for every command whose child exits with a non-zero
    status, when the block completes without an exception, scope-exit of
    either reader raises a plain [Exception] whose only argument is the
    message [repr(status) <- repr(command)]; the object has no attribute
    besides. *)
Theorem C2_exit_raises_message (v : Variant) (w : World) (command : string)
    (argv : list string) (child : Child) (rc : Z) (c : Consume)
    (err : Stderr) :
  shlex_split w command = Ok argv -> spawn w argv = Ok child ->
  child_exit child = Some rc -> rc <> 0 ->
  exists e : PyExc,
    run_outcome (with_reader v w command (mkBody c None) err) = Raises e
    /\ exc_class e = "Exception"
    /\ exc_args e
       = [PyStr (Repr.repr_int rc ++ " <- " ++ Repr.repr_str command)]
    /\ exc_attrs e = [].
Proof.
  intros Hsplit Hspawn Hrc Hnz.
  exists (Exception (failure_message rc command)).
  split; [|repeat split].
  apply (scope_clean_failure w command argv child Hsplit Hspawn v c rc err
           Hrc Hnz).
Qed.

(** C2, amended, at a streamed reader around a command that exits with
    status 3. *)
Lemma C2_exit_raises_message_witness :
  exists e : PyExc,
    run_outcome (with_reader Streamed
                   (single_program ["python3"; "-c"; "exit(3)"] "" (Some 3))
                   "python3 -c exit(3)" (mkBody (Take 2) None) []) = Raises e
    /\ exc_class e = "Exception"
    /\ exc_args e = [PyStr "3 <- 'python3 -c exit(3)'"]
    /\ exc_attrs e = [].
Proof.
  apply (C2_exit_raises_message Streamed
           (single_program ["python3"; "-c"; "exit(3)"] "" (Some 3))
           "python3 -c exit(3)" ["python3"; "-c"; "exit(3)"]
           (mkChild "" (Some 3)) 3
           (Take 2) []); try reflexivity.
  discriminate.
Defined.

(** C6, at a failing input: for the command [false], which exits with
    status 1, in a block that ends normally, [__exit__] raises before it
    reaches [del self.proc]: after the scope the reader of either variant
    still holds its process handle. *)
Theorem C6_proc_kept_on_failure (v : Variant) :
  let run := with_reader v (single_program ["false"] "" (Some 1)) "false"
               (mkBody Drain None) [] in
  run_outcome run = Raises (Exception "1 <- 'false'")
  /\ proc (run_reader run) <> None.
Proof.
  cbv zeta. destruct v; (split; [reflexivity | discriminate]).
Qed.

(** ** Lines of the two readers *)

Section Lines.

Import PyStr ProcessReaderContext.

Lemma rstrip_all_space (ws : string) : all_space ws = true -> rstrip ws = "".
Proof.
  induction ws as [|c ws IH]; [reflexivity|].
  simpl. intros H. apply andb_true_iff in H. destruct H as [Hc Hws].
  rewrite (IH Hws), Hc. reflexivity.
Qed.

Lemma rstrip_append_space (s ws : string) :
  all_space ws = true -> rstrip (s ++ ws) = rstrip s.
Proof.
  intros H. induction s as [|c s IH].
  - simpl. apply rstrip_all_space, H.
  - simpl. rewrite IH. reflexivity.
Qed.

Lemma rstrip_fixed (s : string) : ends_with_space s = false -> rstrip s = s.
Proof.
  induction s as [|c s IH]; [reflexivity|].
  intros H. destruct s as [|d s].
  - simpl in *. rewrite H. reflexivity.
  - change (ends_with_space (String c (String d s)))
      with (ends_with_space (String d s)) in H.
    change (rstrip (String c (String d s)))
      with (match rstrip (String d s) with
            | EmptyString =>
                if isspace c then EmptyString else String c EmptyString
            | r => String c r
            end).
    rewrite (IH H). reflexivity.
Qed.

(** What [rstrip] removes is a run of white space, and it removes all of
    it. *)
Lemma rstrip_spec (s : string) :
  (exists ws : string, s = rstrip s ++ ws /\ all_space ws = true)
  /\ ends_with_space (rstrip s) = false.
Proof.
  induction s as [|c s [(ws & Hs & Hws) Hend]].
  - split; [exists ""; split; reflexivity | reflexivity].
  - simpl. destruct (rstrip s) as [|d r] eqn:E.
    + simpl in Hs. subst ws. destruct (isspace c) eqn:Hc.
      * split; [|reflexivity]. exists (String c s). split; [reflexivity|].
        simpl. rewrite Hc. exact Hws.
      * split; [|simpl; exact Hc]. exists s. split; [reflexivity | exact Hws].
    + split; [|exact Hend]. exists ws. split; [|exact Hws].
      simpl. simpl in Hs. rewrite <- Hs. reflexivity.
Qed.

Lemma chomp_spec (s : string) :
  exists t : string, s = chomp s ++ t /\ all_space t = true.
Proof.
  induction s as [|c s (t & Hs & Ht)].
  - exists "". split; reflexivity.
  - destruct s as [|d s].
    + simpl. destruct (Ascii.eqb c NL) eqn:E.
      * apply Ascii.eqb_eq in E. subst c. exists nl. split; reflexivity.
      * exists "". split; reflexivity.
    + exists t. split; [|exact Ht].
      change (chomp (String c (String d s)))
        with (String c (chomp (String d s))).
      simpl. simpl in Hs. rewrite <- Hs. reflexivity.
Qed.

Lemma rstrip_chomp (s : string) :
  ends_with_space (chomp s) = false -> rstrip s = chomp s.
Proof.
  intros H. destruct (chomp_spec s) as (t & Hs & Ht).
  rewrite Hs at 1. rewrite (rstrip_append_space _ _ Ht).
  apply rstrip_fixed, H.
Qed.

Lemma file_lines_line (l rest : string) :
  no_nl l -> file_lines (l ++ String NL rest) = (l ++ nl) :: file_lines rest.
Proof.
  unfold no_nl. induction l as [|c l IH]; intros H.
  - reflexivity.
  - simpl in H. apply orb_false_iff in H. destruct H as [Hc Hl].
    simpl. rewrite Hc, (IH Hl). reflexivity.
Qed.

Lemma file_lines_rest (f : string) : no_nl f -> file_lines f = fragment f.
Proof.
  unfold no_nl. induction f as [|c f IH]; intros H.
  - reflexivity.
  - simpl in H. apply orb_false_iff in H. destruct H as [Hc Hf].
    simpl. rewrite Hc, (IH Hf). destruct f; reflexivity.
Qed.

(** The raw lines of a text given by its lines. *)
Lemma file_lines_lines (ls : list string) (f : string) :
  Forall no_nl ls -> no_nl f ->
  file_lines (terminated ls ++ f)
  = (map (fun l => (l ++ nl)%string) ls ++ fragment f)%list.
Proof.
  intros Hls Hf. induction ls as [|l ls IH].
  - simpl. apply file_lines_rest, Hf.
  - apply Forall_cons_iff in Hls. destruct Hls as [Hl Hls].
    simpl. rewrite append_assoc. simpl.
    rewrite (file_lines_line _ _ Hl), (IH Hls). reflexivity.
Qed.

Lemma rstrip_terminated_lines (ls : list string) :
  map rstrip (map (fun l => l ++ nl) ls) = map rstrip ls.
Proof.
  rewrite map_map. apply map_ext. intros l.
  apply rstrip_append_space. reflexivity.
Qed.

Lemma map_rstrip_fixed (ls : list string) :
  Forall (fun l => ends_with_space l = false) ls -> map rstrip ls = ls.
Proof.
  intros H. induction H as [|l rest Hl _ IH]; [reflexivity|].
  simpl. rewrite IH, (rstrip_fixed l Hl). reflexivity.
Qed.

(** A list of lines whose text does not end in a newline is empty or ends
    in a non-empty line. *)
Lemma unterminated_shape (ls : list string) :
  ls <> [""] -> ends_with_nl (join nl ls) = false ->
  ls = [] \/ exists init final, ls = (init ++ [final])%list /\ final <> "".
Proof.
  intros Hone Hend.
  induction ls as [|final init _] using rev_ind; [left; reflexivity|].
  right. exists init, final. split; [reflexivity|].
  intros ->. rewrite join_lines_rest, append_nil_r in Hend.
  destruct init as [|l ls]; [apply Hone; reflexivity|].
  rewrite terminated_join, ends_with_nl_last in Hend. discriminate Hend.
Qed.

Lemma Forall2_map_right {A B : Type} (f : A -> B) (R : A -> B -> Prop)
    (l : list A) :
  (forall a, R a (f a)) -> Forall2 R l (map f l).
Proof. intros H. induction l; simpl; constructor; auto. Qed.

End Lines.

Section DrainedLines.

Import PyStr ProcessReaderContext.

Variable w : World.
Variables (command : string) (argv : list string) (child : Child).
Hypothesis Hsplit : shlex_split w command = Ok argv.
Hypothesis Hspawn : spawn w argv = Ok child.

(** The lines a scope hands to its block are the ones [readlines] gives
    on the reader that [__enter__] made. *)
Lemma scope_lines (v : Variant) (body : Body) (rc : Z) (err : Stderr) :
  child_exit child = Some rc ->
  run_lines (with_reader v w command body err)
  = read_lines (readlines v (entered command child) (body_consume body)).
Proof.
  intros Hrc. unfold with_reader.
  rewrite (enter_spawns w command argv child Hsplit Hspawn). cbv zeta.
  destruct (readlines_exited v (entered command child) (mkPopen child None [])
              (body_consume body) rc eq_refl Hrc) as (Hend & _).
  rewrite Hend. destruct (__exit__ _ _); reflexivity.
Qed.

Lemma captured_drained (ls : list string) (f : string) (rc : Z) :
  child_exit child = Some rc -> Forall no_nl ls -> no_nl f ->
  child_stdout child = terminated ls ++ f ->
  read_lines (readlines Captured (entered command child) Drain)
  = (ls ++ fragment f)%list.
Proof.
  intros Hrc Hls Hf Hout. unfold readlines, entered.
  unfold CapturedProcessReaderContext.readlines. simpl proc.
  unfold Popen_communicate. simpl popen_child. rewrite Hrc, Hout.
  rewrite (splitlines_iter_lines ls f Hls Hf). reflexivity.
Qed.

Lemma streamed_drained (ls : list string) (f : string) (rc : Z) :
  child_exit child = Some rc -> Forall no_nl ls -> no_nl f ->
  child_stdout child = terminated ls ++ f ->
  read_lines (readlines Streamed (entered command child) Drain)
  = map rstrip (ls ++ fragment f)%list.
Proof.
  intros Hrc Hls Hf Hout. unfold readlines, entered.
  unfold StreamedProcessReaderContext.readlines. simpl.
  unfold stdout_lines. rewrite Hrc, Hout.
  rewrite (file_lines_lines ls f Hls Hf), !map_app, rstrip_terminated_lines.
  reflexivity.
Qed.

End DrainedLines.

(** C3, as stated, fails: a command that writes the two lines [a ] (with
    a trailing space) and [b], without a final newline.  The captured
    reader yields the two literal lines, the streamed reader yields the
    first one without its trailing space. *)
Lemma C3_counterexample :
  let command := "printf 'a \nb'" in
  let w := single_program ["printf"; "a \nb"] ("a " ++ nl ++ "b") (Some 0) in
  let body := mkBody Drain None in
  run_lines (with_reader Captured w command body []) = ["a "; "b"]
  /\ run_lines (with_reader Streamed w command body []) = ["a"; "b"]
  /\ run_lines (with_reader Streamed w command body [])
     <> run_lines (with_reader Captured w command body []).
Proof.
  cbv zeta. split; [reflexivity|]. split; [reflexivity|]. discriminate.
Qed.

Lemma translate_plain (s : string) :
  has_cr s = false -> translate_newlines s = s.
Proof.
  unfold translate_newlines. induction s as [|c s IH]; [reflexivity|].
  simpl. intros H. apply orb_false_iff in H. destruct H as [Hc Hs].
  rewrite Hc, (IH Hs). reflexivity.
Qed.

(** Output without a carriage return is read as it was written. *)
Lemma reads_as_plain (raw : string) (child : Child) :
  reads_as raw child -> has_cr raw = false -> child_stdout child = raw.
Proof.
  unfold reads_as, pipe_text. intros H Hcr.
  destruct (is_ascii raw); [|discriminate H].
  injection H as H. rewrite <- H. apply translate_plain, Hcr.
Qed.

(** What is read is the translation of what was written. *)
Lemma reads_as_text (raw : string) (child : Child) :
  reads_as raw child -> child_stdout child = translate_newlines raw.
Proof.
  unfold reads_as, pipe_text. intros H.
  destruct (is_ascii raw); [|discriminate H].
  injection H as H. symmetry. exact H.
Qed.

(** C3, amended: for every command that exits after writing [N] lines
    [ls] of ASCII output, with no carriage return and no trailing
    newline, the captured reader, fully drained, yields exactly the [N]
    literal lines in order, and the streamed reader yields the same lines
    in order, each without its trailing white space; the two sequences
    are the same when no line ends in a white-space character. *)
Theorem C3_drained_readers (w : World) (command : string)
    (argv : list string) (child : Child) (rc : Z) (ls : list string)
    (err : Stderr) :
  shlex_split w command = Ok argv -> spawn w argv = Ok child ->
  child_exit child = Some rc ->
  Forall no_nl ls -> ls <> [""] ->
  reads_as (PyStr.join nl ls) child ->
  has_cr (PyStr.join nl ls) = false ->
  PyStr.ends_with_nl (PyStr.join nl ls) = false ->
  let captured :=
    run_lines (with_reader Captured w command (mkBody Drain None) err) in
  let streamed :=
    run_lines (with_reader Streamed w command (mkBody Drain None) err) in
  captured = ls
  /\ streamed = map PyStr.rstrip ls
  /\ (Forall (fun l => PyStr.ends_with_space l = false) ls ->
      streamed = captured).
Proof.
  intros Hsplit Hspawn Hrc Hls Hone Hreads Hcr Hend. cbv zeta.
  pose proof (reads_as_plain _ child Hreads Hcr) as Hout.
  rewrite !(scope_lines w command argv child Hsplit Hspawn _ _ rc err Hrc).
  simpl body_consume.
  assert (Hboth :
    read_lines (readlines Captured (entered command child) Drain) = ls
    /\ read_lines (readlines Streamed (entered command child) Drain)
       = map PyStr.rstrip ls).
  { destruct (unterminated_shape ls Hone Hend)
      as [-> | (init & final & -> & Hfinal)].
    - simpl in Hout. split.
      + apply (captured_drained command child [] "" rc Hrc);
          [constructor | reflexivity | exact Hout].
      + apply (streamed_drained command child [] "" rc Hrc);
          [constructor | reflexivity | exact Hout].
    - apply Forall_app in Hls. destruct Hls as [Hinit Hfin].
      apply Forall_cons_iff in Hfin. destruct Hfin as [Hfin _].
      rewrite join_lines_rest in Hout.
      assert (Hfrag : fragment final = [final])
        by (unfold fragment; destruct final; [contradiction | reflexivity]).
      split.
      + rewrite (captured_drained command child init final rc Hrc Hinit Hfin
                   Hout), Hfrag. reflexivity.
      + rewrite (streamed_drained command child init final rc Hrc Hinit Hfin
                   Hout), Hfrag. reflexivity. }
  destruct Hboth as [Hcap Hstr]. rewrite Hcap, Hstr.
  split; [reflexivity|]. split; [reflexivity|].
  apply map_rstrip_fixed.
Qed.

(** C3, amended, at four ASCII lines none of which ends in white
    space. *)
Lemma C3_drained_readers_witness :
  let command := "printf '1\nx y\n\n3'" in
  let w := single_program ["printf"; "1\nx y\n\n3"]
             ("1" ++ nl ++ "x y" ++ nl ++ nl ++ "3") (Some 0) in
  reads_as (PyStr.join nl ["1"; "x y"; ""; "3"])
           (mkChild ("1" ++ nl ++ "x y" ++ nl ++ nl ++ "3") (Some 0))
  /\ has_cr (PyStr.join nl ["1"; "x y"; ""; "3"]) = false
  /\ run_lines (with_reader Captured w command (mkBody Drain None) [])
  = ["1"; "x y"; ""; "3"]
  /\ run_lines (with_reader Streamed w command (mkBody Drain None) [])
     = map PyStr.rstrip ["1"; "x y"; ""; "3"]
  /\ run_lines (with_reader Streamed w command (mkBody Drain None) [])
     = run_lines (with_reader Captured w command (mkBody Drain None) []).
Proof.
  cbv zeta. split; [reflexivity|]. split; [reflexivity|].
  destruct (C3_drained_readers
              (single_program ["printf"; "1\nx y\n\n3"]
                 ("1" ++ nl ++ "x y" ++ nl ++ nl ++ "3") (Some 0))
              "printf '1\nx y\n\n3'" ["printf"; "1\nx y\n\n3"]
              (mkChild ("1" ++ nl ++ "x y" ++ nl ++ nl ++ "3") (Some 0))
              0 ["1"; "x y"; ""; "3"] [])
    as (Hcap & Hstr & Hsame);
    try reflexivity; try discriminate.
  - repeat constructor.
  - split; [exact Hcap|]. split; [exact Hstr|].
    apply Hsame. repeat constructor.
Defined.

(** C4, as stated, fails: for a child that writes [a ] (with a trailing
    space), a newline, and a tab-terminated [b], the raw lines without
    their newline keep the space and the tab, but the streamed reader
    yields [a] and [b]. *)
Lemma C4_counterexample :
  let tab := String "009"%char "" in
  let child := mkChild ("a " ++ nl ++ "b" ++ tab ++ nl) (Some 0) in
  map chomp (stdout_lines child) = ["a "; "b" ++ tab]
  /\ read_lines (StreamedProcessReaderContext.readlines
                   (entered "printf 'a \nb\t\n'" child) Drain) = ["a"; "b"].
Proof. cbv zeta. split; reflexivity. Qed.

(** C4, amended: every line yielded by the streamed [readlines()] is the
    raw line read off the pipe without its whole trailing run of white
    space: the line terminator and also any spaces, tabs or other white
    space before it; all characters before that run are kept.  The
    yielded line is the raw line without its newline exactly when that
    does not end in white space. *)
Theorem C4_streamed_lines_rstripped (self : Reader) (p : Popen) (c : Consume) :
  proc self = Some p ->
  Forall2
    (fun raw line =>
       (exists ws : string, raw = line ++ ws /\ PyStr.all_space ws = true)
       /\ PyStr.ends_with_space line = false
       /\ (PyStr.ends_with_space (chomp raw) = false -> line = chomp raw))
    (consumed c (stdout_lines (popen_child p)))
    (read_lines (StreamedProcessReaderContext.readlines self c)).
Proof.
  intros Hp.
  assert (Hall : forall raws : list string,
    Forall2
      (fun raw line =>
         (exists ws : string, raw = line ++ ws /\ PyStr.all_space ws = true)
         /\ PyStr.ends_with_space line = false
         /\ (PyStr.ends_with_space (chomp raw) = false -> line = chomp raw))
      raws (map PyStr.rstrip raws)).
  { intros raws. apply Forall2_map_right. intros raw.
    destruct (rstrip_spec raw) as [Hws Hend].
    split; [exact Hws|]. split; [exact Hend | apply rstrip_chomp]. }
  unfold StreamedProcessReaderContext.readlines.
  destruct c as [[|k]|].
  - simpl. constructor.
  - rewrite Hp. simpl read_lines. apply Hall.
  - rewrite Hp. simpl read_lines. apply Hall.
Qed.

(** C4, amended, at the raw lines of a child that writes [a ], [b c]
    and an unterminated [d]. *)
Lemma C4_streamed_lines_rstripped_witness :
  let child := mkChild ("a " ++ nl ++ "b c" ++ nl ++ "d") (Some 0) in
  Forall2
    (fun raw line =>
       (exists ws : string, raw = line ++ ws /\ PyStr.all_space ws = true)
       /\ PyStr.ends_with_space line = false
       /\ (PyStr.ends_with_space (chomp raw) = false -> line = chomp raw))
    ["a " ++ nl; "b c" ++ nl; "d"]
    ["a"; "b c"; "d"].
Proof.
  exact (C4_streamed_lines_rstripped
           (entered "printf 'a \nb c\nd'"
              (mkChild ("a " ++ nl ++ "b c" ++ nl ++ "d") (Some 0)))
           (mkPopen (mkChild ("a " ++ nl ++ "b c" ++ nl ++ "d") (Some 0))
                    None [])
           Drain eq_refl).
Defined.

(** ** [syscall] *)

(** C8: for every command whose child writes nothing and exits with
    status 0, [syscall] returns the empty output without raising, and the
    last thing it logs is the warning that the command failed to produce
    any output. *)
Theorem C8_syscall_empty_output_warns (w : World) (command : string)
    (argv : list string) (child : Child) (err : Stderr) :
  shlex_split w command = Ok argv -> spawn w argv = Ok child ->
  child_stdout child = "" -> child_exit child = Some 0 ->
  syscall w command err
  = (Ok "",
     (err ++ [log_line w "DEPRECATED falcon_kit.util.io.syscall()";
              log_line w ("$ " ++ Repr.repr_str command ++ " >")%string;
              log_line w ("WARNING: " ++ Repr.repr_str command
                          ++ " failed to produce any output.")%string])%list).
Proof.
  intros Hsplit Hspawn Hout Hrc.
  unfold syscall, check_output. rewrite Hsplit, Hspawn, Hrc, Hout.
  simpl. unfold LOG, write_with_pid. simpl.
  rewrite <- !app_assoc. reflexivity.
Qed.

(** C8 at the command [true]. *)
Lemma C8_syscall_empty_output_warns_witness :
  syscall (single_program ["true"] "" (Some 0)) "true" []
  = (Ok "",
     ["[1000]DEPRECATED falcon_kit.util.io.syscall()" ++ nl;
      "[1000]$ 'true' >" ++ nl;
      "[1000]WARNING: 'true' failed to produce any output." ++ nl]).
Proof.
  exact (C8_syscall_empty_output_warns (single_program ["true"] "" (Some 0))
           "true"
           ["true"] (mkChild "" (Some 0)) [] eq_refl eq_refl eq_refl eq_refl).
Defined.

(** ** The FOFN validator *)

Section Fofn.

Variable os : OS.
Variable dirname : string.

Lemma validate_each_ok (fns : list string) :
  forallb (entry_ok os dirname) fns = true ->
  validate_each os dirname fns
  = mkGen (map (resolved os dirname) fns) (Ok tt).
Proof.
  induction fns as [|fn rest IH]; [reflexivity|].
  simpl. intros H. apply andb_true_iff in H. destruct H as [Hfn Hrest].
  unfold entry_ok in Hfn. apply andb_true_iff in Hfn.
  destruct Hfn as [Hne Hstat]. apply negb_true_iff in Hne. rewrite Hne.
  unfold path_isfile, filesize.
  destruct (os_stat os (resolved os dirname fn)) as [st|]; [|discriminate].
  apply andb_true_iff in Hstat. destruct Hstat as [Hreg Hsize].
  apply negb_true_iff in Hsize. rewrite Hreg, Hsize. simpl.
  rewrite (IH Hrest). reflexivity.
Qed.

(** The loop stops at an entry that does not pass: it raises
    [AssertionError] there. *)
Lemma validate_each_bad (bad : string) (rest : list string) :
  entry_ok os dirname bad = false ->
  exists msg : option string,
    validate_each os dirname (bad :: rest)
    = mkGen [] (Raise (AssertionError msg)).
Proof.
  intros H. simpl. unfold entry_ok in H.
  destruct (PyStr.is_empty bad); [eexists; reflexivity|].
  simpl in H. unfold path_isfile, filesize.
  destruct (os_stat os (resolved os dirname bad)) as [st|];
    [|eexists; reflexivity].
  destruct (st_isreg st); [|eexists; reflexivity].
  simpl in H. apply negb_false_iff in H. rewrite H. simpl.
  eexists; reflexivity.
Qed.

Lemma validate_each_stops (good : list string) (bad : string)
    (rest : list string) :
  forallb (entry_ok os dirname) good = true ->
  entry_ok os dirname bad = false ->
  exists msg : option string,
    validate_each os dirname (good ++ bad :: rest)
    = mkGen (map (resolved os dirname) good) (Raise (AssertionError msg)).
Proof.
  intros Hgood Hbad.
  destruct (validate_each_bad bad rest Hbad) as (msg & Hstop).
  exists msg. induction good as [|fn good IH]; [exact Hstop|].
  simpl in Hgood. apply andb_true_iff in Hgood. destruct Hgood as [Hfn Hgood].
  pose proof (validate_each_ok [fn]) as Hone. simpl in Hone.
  rewrite Hfn in Hone. specialize (Hone eq_refl).
  change ((fn :: good) ++ bad :: rest)%list
    with (fn :: (good ++ bad :: rest))%list.
  revert Hone. cbn [validate_each].
  destruct (PyStr.is_empty fn); [discriminate|].
  destruct (negb (path_isfile os (resolved os dirname fn))); [discriminate|].
  destruct (filesize os (resolved os dirname fn)) as [size| |];
    [|discriminate|discriminate].
  destruct (size =? 0); [discriminate|]. intros _.
  rewrite (IH Hgood). reflexivity.
Qed.

End Fofn.

(** C7: the validator takes the entries of the manifest from
    [deserialize] and, when that raises, from the white-space separated
    words of the file; an entry that is not absolute is read against the
    directory of the manifest; when every entry is a non-empty name of a
    regular file of non-zero size, the resolved entries are yielded in
    order; at the first entry that is empty, is not a regular file or has
    size zero, the generator raises, having yielded only the entries
    before it, and [validated_fns] raises without returning a list. *)
Theorem C7_fofn_validation (os : OS) (fofn : string) (fns : list string)
    (err : Stderr) :
  (deserialize os fofn = Ok fns
   \/ (exists e, deserialize os fofn = Raise e)
      /\ (exists text, read_file os fofn = Ok text
                       /\ fns = PyStr.split_ws (PyStr.strip text))) ->
  let dir := fofn_dir os fofn in
  (forall fn,
     resolved os dir fn
     = if path_isabs os fn then fn
       else path_normpath os (path_relpath os (path_join os dir fn)))
  /\ (forallb (entry_ok os dir) fns = true ->
      yield_validated_fns os fofn err
      = (mkGen (map (resolved os dir) fns) (Ok tt), err)
      /\ validated_fns os fofn err = (Ok (map (resolved os dir) fns), err))
  /\ (forall (good : list string) (bad : string) (rest : list string),
        fns = (good ++ bad :: rest)%list ->
        forallb (entry_ok os dir) good = true ->
        entry_ok os dir bad = false ->
        exists msg : option string,
          let err' := (err ++ [("Failed to validate FOFN "
                                ++ Repr.repr_str fofn ++ nl)%string])%list in
          yield_validated_fns os fofn err
          = (mkGen (map (resolved os dir) good)
                   (Raise (AssertionError msg)), err')
          /\ validated_fns os fofn err = (Raise (AssertionError msg), err')).
Proof.
  intros Hparse dir.
  assert (Hentries : fofn_entries os fofn = Ok fns).
  { unfold fofn_entries.
    destruct Hparse as [H | [(e & He) (text & Ht & Hfns)]].
    - rewrite H. reflexivity.
    - rewrite He, Ht, Hfns. reflexivity. }
  split; [reflexivity|]. split.
  - intros Hok.
    assert (Hgen : yield_validated_fns os fofn err
                   = (mkGen (map (resolved os dir) fns) (Ok tt), err)).
    { unfold yield_validated_fns. rewrite Hentries.
      fold (fofn_dir os fofn). fold dir. cbv zeta.
      rewrite (validate_each_ok os dir fns Hok). reflexivity. }
    split; [exact Hgen|]. unfold validated_fns. rewrite Hgen. reflexivity.
  - intros good bad rest Hfns Hgood Hbad.
    destruct (validate_each_stops os dir good bad rest Hgood Hbad)
      as (msg & Hstop).
    exists msg. cbv zeta.
    assert (Hgen : yield_validated_fns os fofn err
                   = (mkGen (map (resolved os dir) good)
                            (Raise (AssertionError msg)),
                      (err ++ [("Failed to validate FOFN "
                                ++ Repr.repr_str fofn ++ nl)%string])%list)).
    { unfold yield_validated_fns. rewrite Hentries.
      fold (fofn_dir os fofn). fold dir. cbv zeta.
      rewrite Hfns, Hstop. reflexivity. }
    split; [exact Hgen|]. unfold validated_fns. rewrite Hgen. reflexivity.
Qed.

(** C7 at a manifest whose third entry is an empty file, and at a
    manifest with one good entry. *)
Lemma C7_fofn_validation_witness :
  let os := data_os ("a.fa /data/a.fa" ++ nl ++ "b.fa sub" ++ nl) in
  yield_validated_fns os "/data/in.fofn" []
  = (mkGen ["/data/a.fa"; "/data/a.fa"]
           (Raise (AssertionError (Some "'/data/b.fa' has size 0"))),
     ["Failed to validate FOFN '/data/in.fofn'" ++ nl])
  /\ (exists msg,
        validated_fns os "/data/in.fofn" []
        = (Raise (AssertionError msg),
           ["Failed to validate FOFN '/data/in.fofn'" ++ nl]))
  /\ validated_fns (data_os ("a.fa" ++ nl)) "/data/in.fofn" []
     = (Ok ["/data/a.fa"], []).
Proof.
  cbv zeta. split; [reflexivity|]. split.
  - destruct (C7_fofn_validation
                (data_os ("a.fa /data/a.fa" ++ nl ++ "b.fa sub" ++ nl))
                "/data/in.fofn" ["a.fa"; "/data/a.fa"; "b.fa"; "sub"] [])
      as (_ & _ & Hstop).
    + right. split; [eexists; reflexivity|].
      eexists. split; reflexivity.
    + destruct (Hstop ["a.fa"; "/data/a.fa"] "b.fa" ["sub"]
                  eq_refl eq_refl eq_refl) as (msg & _ & Hlist).
      exists msg. exact Hlist.
  - destruct (C7_fofn_validation (data_os ("a.fa" ++ nl)) "/data/in.fofn"
                ["a.fa"] []) as (_ & Hall & _).
    + right. split; [eexists; reflexivity|].
      eexists. split; reflexivity.
    + destruct (Hall eq_refl) as (_ & Hlist). exact Hlist.
Defined.

(** * Further properties *)

(** ** More on [splitlines_iter] *)

Section SplitlinesMore.

Import PyStr.

Lemma count_nl_line (l rest : string) :
  no_nl l -> count_nl (l ++ rest) = count_nl rest.
Proof.
  unfold no_nl. induction l as [|c l IH]; intros H; [reflexivity|].
  simpl in H. apply orb_false_iff in H. destruct H as [Hc Hl].
  simpl. rewrite Hc. apply IH, Hl.
Qed.

Lemma count_nl_lines (ls : list string) (f : string) :
  Forall no_nl ls -> no_nl f ->
  count_nl (terminated ls ++ f) = List.length ls.
Proof.
  intros Hls Hf. induction ls as [|l ls IH].
  - simpl. rewrite <- (append_nil_r f). rewrite (count_nl_line f "" Hf).
    reflexivity.
  - apply Forall_cons_iff in Hls. destruct Hls as [Hl Hls].
    simpl. rewrite append_assoc, (count_nl_line _ _ Hl). simpl.
    rewrite (IH Hls). reflexivity.
Qed.

Lemma cut_lines_open (t : string) :
  (ends_with_nl t || is_empty t) = is_empty (snd (cut_lines t)).
Proof.
  destruct (cut_lines t) as [ls f] eqn:E.
  destruct (cut_lines_spec t ls f E) as (Ht & Hls & Hf). simpl.
  destruct f as [|c f].
  - rewrite append_nil_r in Ht. destruct ls as [|l ls].
    + simpl in Ht. subst t. reflexivity.
    + rewrite terminated_join in Ht. rewrite Ht, ends_with_nl_last.
      reflexivity.
  - rewrite Ht, ends_with_nl_append by discriminate.
    rewrite (no_nl_not_ending _ Hf). simpl.
    destruct (terminated ls); reflexivity.
Qed.

(** X1: no line that [splitlines_iter] yields holds a newline, and it
    yields one line per newline of the text, plus one when the text is not
    empty and does not end in a newline. *)
Theorem X1_splitlines_iter_line_count (t : string) :
  exists ls : list string,
    splitlines_iter t = Some ls
    /\ Forall no_nl ls
    /\ List.length ls
       = (count_nl t + (if ends_with_nl t || is_empty t then 0 else 1))%nat.
Proof.
  exists (fst (cut_lines t) ++ fragment (snd (cut_lines t)))%list.
  split; [apply splitlines_iter_total|].
  rewrite cut_lines_open.
  destruct (cut_lines t) as [ls f] eqn:E.
  destruct (cut_lines_spec t ls f E) as (Ht & Hls & Hf). simpl.
  split.
  - apply Forall_app. split; [exact Hls|].
    unfold fragment. destruct f; constructor; [exact Hf | constructor].
  - rewrite length_app, Ht, (count_nl_lines ls f Hls Hf).
    unfold fragment. destruct f; reflexivity.
Qed.

Lemma splitlines_from_cut (t : string) :
  has_other_break t = false ->
  splitlines_from false t
  = (fst (cut_lines t) ++ fragment (snd (cut_lines t)))%list.
Proof.
  induction t as [|c t IH]; intros H; [reflexivity|].
  simpl in H. apply orb_false_iff in H. destruct H as [Hc Ht].
  specialize (IH Ht). cbn [splitlines_from cut_lines andb].
  destruct (cut_lines t) as [ls f]. simpl in IH.
  destruct (Ascii.eqb c NL) eqn:E.
  - apply Ascii.eqb_eq in E. subst c. simpl. rewrite IH. reflexivity.
  - simpl in Hc. rewrite andb_true_r in Hc. rewrite Hc, IH.
    destruct ls as [|l ls]; simpl.
    + unfold fragment. destruct f; reflexivity.
    + reflexivity.
Qed.

(** X2: [splitlines_iter] yields what [str.splitlines] returns, for every
    text whose only line-break characters are newlines (no CR, VT, FF, FS,
    GS, RS or NEL). *)
Theorem X2_splitlines_iter_is_splitlines (t : string) :
  has_other_break t = false ->
  splitlines_iter t = Some (str_splitlines t).
Proof.
  intros H. unfold str_splitlines.
  rewrite (splitlines_from_cut t H). apply splitlines_iter_total.
Qed.

(** X2 at a text with an empty line and an unterminated last line. *)
Lemma X2_splitlines_iter_is_splitlines_witness :
  has_other_break ("a b" ++ nl ++ nl ++ "c") = false
  /\ splitlines_iter ("a b" ++ nl ++ nl ++ "c")
     = Some (str_splitlines ("a b" ++ nl ++ nl ++ "c"))
  /\ str_splitlines ("a b" ++ nl ++ nl ++ "c") = ["a b"; ""; "c"].
Proof.
  split; [reflexivity|]. split; [|reflexivity].
  apply (X2_splitlines_iter_is_splitlines ("a b" ++ nl ++ nl ++ "c")).
  reflexivity.
Defined.

End SplitlinesMore.

(** ** More on the readers *)

Section ReadersMore.

Import PyStr ProcessReaderContext.

Variable w : World.
Variables (command : string) (argv : list string) (child : Child).
Hypothesis Hsplit : shlex_split w command = Ok argv.
Hypothesis Hspawn : spawn w argv = Ok child.

Lemma consumed_map {A B : Type} (f : A -> B) (c : Consume) (l : list A) :
  consumed c (map f l) = map f (consumed c l).
Proof. destruct c as [k|]; simpl; [apply firstn_map | reflexivity]. Qed.

Lemma captured_read (c : Consume) (rc : Z) :
  child_exit child = Some rc ->
  read_lines (readlines Captured (entered command child) c)
  = consumed c (fst (cut_lines (child_stdout child))
                ++ fragment (snd (cut_lines (child_stdout child))))%list.
Proof.
  intros Hrc. unfold readlines, entered.
  unfold CapturedProcessReaderContext.readlines.
  destruct c as [[|k]|]; [reflexivity| |];
    simpl proc; unfold Popen_communicate; simpl popen_child;
    rewrite Hrc, splitlines_iter_total; reflexivity.
Qed.

Lemma streamed_read (c : Consume) :
  read_lines (readlines Streamed (entered command child) c)
  = map rstrip (consumed c (stdout_lines child)).
Proof.
  unfold readlines, entered.
  unfold StreamedProcessReaderContext.readlines.
  destruct c as [[|k]|]; reflexivity.
Qed.

Lemma file_lines_cut (t : string) :
  map rstrip (file_lines t)
  = map rstrip (fst (cut_lines t) ++ fragment (snd (cut_lines t)))%list.
Proof.
  destruct (cut_lines t) as [ls f] eqn:E.
  destruct (cut_lines_spec t ls f E) as (Ht & Hls & Hf). simpl.
  rewrite Ht at 1.
  rewrite (file_lines_lines ls f Hls Hf), !map_app, rstrip_terminated_lines.
  reflexivity.
Qed.

(** X3: for every command that exits and whose output is ASCII, so that
    the pipe decodes it, however far the block reads, the lines that the
    streamed reader hands out are the lines that the captured reader hands
    out, each without its trailing white space. *)
Theorem X3_streamed_is_rstripped_captured (raw : string) (c : Consume)
    (rc : Z) (err : Stderr) :
  reads_as raw child ->
  child_exit child = Some rc ->
  run_lines (with_reader Streamed w command (mkBody c None) err)
  = map rstrip
        (run_lines (with_reader Captured w command (mkBody c None) err)).
Proof.
  intros _ Hrc.
  rewrite !(scope_lines w command argv child Hsplit Hspawn _ _ rc err Hrc).
  simpl body_consume.
  rewrite (captured_read c rc Hrc), streamed_read.
  unfold stdout_lines. rewrite Hrc.
  rewrite <- !consumed_map. rewrite file_lines_cut. reflexivity.
Qed.

Lemma complete_lines (ls : list string) (f : string) :
  Forall no_nl ls -> no_nl f ->
  filter ends_with_nl (file_lines (terminated ls ++ f))
  = map (fun l => (l ++ nl)%string) ls.
Proof.
  intros Hls Hf. rewrite (file_lines_lines ls f Hls Hf), filter_app.
  assert (Hfrag : filter ends_with_nl (fragment f) = []).
  { unfold fragment. destruct f as [|x f]; [reflexivity|].
    cbn [is_empty filter]. rewrite (no_nl_not_ending _ Hf). reflexivity. }
  rewrite Hfrag, app_nil_r. clear Hfrag Hls.
  induction ls as [|l ls IH]; [reflexivity|].
  simpl. rewrite ends_with_nl_last, IH. reflexivity.
Qed.

Lemma streamed_read_running (ls : list string) (f : string) (k : nat) :
  child_exit child = None ->
  child_stdout child = terminated ls ++ f ->
  Forall no_nl ls -> no_nl f -> (k <= List.length ls)%nat ->
  exists ops : list ProcOp,
    readlines Streamed (entered command child) (Take k)
    = mkRead (firstn k (map rstrip ls))
             (mkReader command (Some (mkPopen child None ops)) None)
             (Ok tt).
Proof.
  intros Hrc Hout Hls Hf Hk. unfold readlines, entered.
  unfold StreamedProcessReaderContext.readlines.
  destruct k as [|k]; [exists []; reflexivity|].
  cbn [proc popen_child popen_returncode popen_ops cmd returncode].
  unfold stdout_lines. rewrite Hrc, Hout, (complete_lines ls f Hls Hf).
  unfold reaches_end. rewrite length_map.
  assert (Hlt : (List.length ls <? S k)%nat = false)
    by (apply Nat.ltb_ge; exact Hk).
  rewrite Hlt. unfold consumed.
  rewrite <- firstn_map, rstrip_terminated_lines.
  eexists. reflexivity.
Qed.

(** X4: the streamed reader lets go of a child that never exits.  When
    the block takes [k] of the lines that the child has written in full
    and then raises, the statement ends with the block's own exception,
    having handed out the first [k] lines right-stripped; the child is not
    waited for, [proc] is deleted and [returncode] is [None]. *)
Theorem X4_streamed_abandons_running_child (ls : list string) (f : string)
    (k : nat) (e : PyExc) (err : Stderr) :
  child_exit child = None ->
  child_stdout child = terminated ls ++ f ->
  Forall no_nl ls -> no_nl f -> (k <= List.length ls)%nat ->
  let run := with_reader Streamed w command (mkBody (Take k) (Some e)) err in
  run_outcome run = Raises e
  /\ run_lines run = firstn k (map rstrip ls)
  /\ proc (run_reader run) = None
  /\ returncode (run_reader run) = Some None.
Proof.
  intros Hrc Hout Hls Hf Hk. cbv zeta. unfold with_reader.
  rewrite (enter_spawns w command argv child Hsplit Hspawn).
  cbn [body_consume body_raise].
  destruct (streamed_read_running ls f k Hrc Hout Hls Hf Hk)
    as (ops & Hread).
  rewrite Hread. simpl. repeat split.
Qed.

(** X5: a scope whose block ends normally never ends when the child never
    exits: either reading blocks, or [__exit__] waits for ever. *)
Theorem X5_clean_exit_waits_for_ever (v : Variant) (c : Consume)
    (err : Stderr) :
  child_exit child = None ->
  run_outcome (with_reader v w command (mkBody c None) err) = Hangs.
Proof.
  intros Hrc. unfold with_reader.
  rewrite (enter_spawns w command argv child Hsplit Hspawn). cbv zeta.
  simpl body_consume. simpl body_raise. unfold readlines, entered.
  destruct v.
  - unfold CapturedProcessReaderContext.readlines.
    destruct c as [[|k]|];
      simpl proc; unfold Popen_communicate; simpl popen_child;
      try rewrite Hrc; simpl; unfold __exit__, Popen_wait; simpl;
      try rewrite Hrc; reflexivity.
  - unfold StreamedProcessReaderContext.readlines.
    destruct c as [[|k]|]; simpl; try rewrite Hrc; simpl.
    + unfold __exit__, Popen_wait. simpl. rewrite Hrc. reflexivity.
    + destruct (_ <? _)%nat; simpl; [reflexivity|].
      unfold __exit__, Popen_wait. simpl. rewrite Hrc. reflexivity.
    + reflexivity.
Qed.

(** X6: after a scope whose block ended normally around a child that
    exited with status [rc], the statement completes exactly when [rc] is
    0, and in both cases the reader's [returncode] holds [rc] and its
    [cmd] is unchanged. *)
Theorem X6_clean_exit_records_status (v : Variant) (c : Consume) (rc : Z)
    (err : Stderr) :
  child_exit child = Some rc ->
  let run := with_reader v w command (mkBody c None) err in
  (run_outcome run = Completes <-> rc = 0)
  /\ returncode (run_reader run) = Some (Some rc)
  /\ cmd (run_reader run) = command.
Proof.
  intros Hrc. cbv zeta. unfold with_reader.
  rewrite (enter_spawns w command argv child Hsplit Hspawn). cbv zeta.
  destruct (readlines_exited v (entered command child) (mkPopen child None [])
              c rc eq_refl Hrc) as (Hend & Hcmd & p' & Hp' & Hchild & _).
  simpl body_consume. rewrite Hend. simpl body_raise.
  simpl in Hchild. rewrite <- Hchild in Hrc.
  destruct (Z.eq_dec rc 0) as [Hz | Hnz].
  - subst rc. rewrite (exit_clean_success _ p' Hp' Hrc), Hcmd. simpl.
    repeat split; reflexivity.
  - rewrite (exit_clean_failure _ p' rc Hp' Hrc Hnz), Hcmd. simpl.
    repeat split; try reflexivity; try contradiction. discriminate.
Qed.

(** X7: what a scope raises when its block raises [e], around a child
    that exits with status [rc] and whose output is ASCII, so that the
    pipe decodes it: the block's [e], except that a captured reader that
    was asked for at least one line raises the [Exception] of the status
    check when [rc] is not 0. *)
Theorem X7_block_exception_outcome (raw : string) (v : Variant)
    (c : Consume) (rc : Z) (e : PyExc) (err : Stderr) :
  reads_as raw child ->
  child_exit child = Some rc ->
  run_outcome (with_reader v w command (mkBody c (Some e)) err)
  = Raises (exception_after v c rc command e).
Proof.
  intros _ Hrc. unfold with_reader.
  rewrite (enter_spawns w command argv child Hsplit Hspawn). cbv zeta.
  simpl body_consume. simpl body_raise. unfold readlines, entered.
  destruct v.
  - unfold CapturedProcessReaderContext.readlines.
    destruct c as [[|k]|]; [reflexivity| |];
      simpl proc; unfold Popen_communicate; simpl popen_child;
      rewrite Hrc, splitlines_iter_total; unfold __exit__; simpl;
      destruct (rc =? 0); reflexivity.
  - unfold StreamedProcessReaderContext.readlines.
    destruct c as [[|k]|]; simpl; try rewrite Hrc; reflexivity.
Qed.

End ReadersMore.

(** X3 at a command that writes a line with trailing blanks, a line
    ended by a tab and CR LF, and an unterminated line. *)
Lemma X3_streamed_is_rstripped_captured_witness :
  let command := "printf 'a  \nb\t\r\nc'" in
  let w := single_program ["printf"; "a  \nb\t\r\nc"]
             ("a  " ++ nl ++ "b" ++ String "009" nl ++ "c") (Some 0) in
  reads_as ("a  " ++ nl ++ "b" ++ String "009" (String CR nl) ++ "c")
           (mkChild ("a  " ++ nl ++ "b" ++ String "009" nl ++ "c") (Some 0))
  /\ run_lines (with_reader Streamed w command (mkBody (Take 2) None) [])
  = map PyStr.rstrip
        (run_lines (with_reader Captured w command (mkBody (Take 2) None) []))
  /\ run_lines (with_reader Captured w command (mkBody (Take 2) None) [])
     = ["a  "; "b" ++ String "009" ""].
Proof.
  cbv zeta. split; [reflexivity|]. split; [|reflexivity].
  apply (X3_streamed_is_rstripped_captured
           (single_program ["printf"; "a  \nb\t\r\nc"]
              ("a  " ++ nl ++ "b" ++ String "009" nl ++ "c") (Some 0))
           "printf 'a  \nb\t\r\nc'" ["printf"; "a  \nb\t\r\nc"]
           (mkChild ("a  " ++ nl ++ "b" ++ String "009" nl ++ "c") (Some 0))
           eq_refl eq_refl
           ("a  " ++ nl ++ "b" ++ String "009" (String CR nl) ++ "c")
           (Take 2) 0 [] eq_refl eq_refl).
Defined.

(** X4 at [yes], which goes on writing: here it has written two full
    lines and part of a third. *)
Lemma X4_streamed_abandons_running_child_witness :
  let w := single_program ["yes"] ("y" ++ nl ++ "y" ++ nl ++ "y") None in
  let run := with_reader Streamed w "yes"
               (mkBody (Take 2) (Some (ValueError "enough"))) [] in
  run_outcome run = Raises (ValueError "enough")
  /\ run_lines run = ["y"; "y"]
  /\ proc (run_reader run) = None
  /\ returncode (run_reader run) = Some None.
Proof.
  apply (X4_streamed_abandons_running_child
           (single_program ["yes"] ("y" ++ nl ++ "y" ++ nl ++ "y") None)
           "yes" ["yes"] (mkChild ("y" ++ nl ++ "y" ++ nl ++ "y") None)
           eq_refl eq_refl ["y"; "y"] "y" 2 (ValueError "enough") []);
    try reflexivity; repeat constructor.
Defined.

(** X5 at [yes] and a block that reads nothing. *)
Lemma X5_clean_exit_waits_for_ever_witness :
  run_outcome (with_reader Captured
                 (single_program ["yes"] ("y" ++ nl) None) "yes"
                 (mkBody (Take 0) None) []) = Hangs.
Proof.
  apply (X5_clean_exit_waits_for_ever
           (single_program ["yes"] ("y" ++ nl) None) "yes" ["yes"]
           (mkChild ("y" ++ nl) None) eq_refl eq_refl Captured (Take 0) []
           eq_refl).
Defined.

(** X6 at [false]. *)
Lemma X6_clean_exit_records_status_witness :
  let run := with_reader Streamed (single_program ["false"] "" (Some 1))
               "false" (mkBody Drain None) [] in
  (run_outcome run = Completes <-> 1 = 0)
  /\ returncode (run_reader run) = Some (Some 1)
  /\ cmd (run_reader run) = "false".
Proof.
  apply (X6_clean_exit_records_status
           (single_program ["false"] "" (Some 1)) "false" ["false"]
           (mkChild "" (Some 1)) eq_refl eq_refl Streamed Drain 1 []
           eq_refl).
Defined.

(** X7 at a streamed and at a captured reader around
    [grep -c x /dev/null], which exits with status 1. *)
Lemma X7_block_exception_outcome_witness :
  let w := single_program ["grep"; "-c"; "x"; "/dev/null"] ("0" ++ nl)
                          (Some 1) in
  let body := mkBody (Take 1) (Some (ValueError "stop")) in
  reads_as ("0" ++ nl) (mkChild ("0" ++ nl) (Some 1))
  /\ run_outcome (with_reader Streamed w "grep -c x /dev/null" body [])
     = Raises (ValueError "stop")
  /\ run_outcome (with_reader Captured w "grep -c x /dev/null" body [])
     = Raises (Exception "1 <- 'grep -c x /dev/null'").
Proof.
  cbv zeta. split; [reflexivity|]. split.
  - apply (X7_block_exception_outcome
             (single_program ["grep"; "-c"; "x"; "/dev/null"] ("0" ++ nl)
                             (Some 1))
             "grep -c x /dev/null" ["grep"; "-c"; "x"; "/dev/null"]
             (mkChild ("0" ++ nl) (Some 1)) eq_refl eq_refl ("0" ++ nl)
             Streamed (Take 1) 1 (ValueError "stop") [] eq_refl eq_refl).
  - apply (X7_block_exception_outcome
             (single_program ["grep"; "-c"; "x"; "/dev/null"] ("0" ++ nl)
                             (Some 1))
             "grep -c x /dev/null" ["grep"; "-c"; "x"; "/dev/null"]
             (mkChild ("0" ++ nl) (Some 1)) eq_refl eq_refl ("0" ++ nl)
             Captured (Take 1) 1 (ValueError "stop") [] eq_refl eq_refl).
Defined.

(** ** [syscall], [slurplines] and [system] *)

Section Shell.

Import PyStr.

Variable w : World.
Variables (command : string) (argv : list string) (child : Child).
Hypothesis Hsplit : shlex_split w command = Ok argv.
Hypothesis Hspawn : spawn w argv = Ok child.

Lemma syscall_exited (rc : Z) (err : Stderr) :
  child_exit child = Some rc ->
  syscall w command err
  = (if rc =? 0 then Ok (child_stdout child)
     else Raise (CalledProcessError rc argv (child_stdout child)),
     (err
      ++ [log_line w "DEPRECATED falcon_kit.util.io.syscall()";
          log_line w ("$ " ++ Repr.repr_str command ++ " >")%string]
      ++ (if (rc =? 0) && is_empty (child_stdout child)
          then [log_line w ("WARNING: " ++ Repr.repr_str command
                            ++ " failed to produce any output.")%string]
          else []))%list).
Proof.
  intros Hrc. unfold syscall, check_output. rewrite Hsplit, Hspawn, Hrc.
  unfold LOG, write_with_pid. simpl.
  destruct (rc =? 0); simpl.
  - destruct (is_empty (child_stdout child)); simpl;
      rewrite <- !app_assoc; reflexivity.
  - rewrite <- !app_assoc. reflexivity.
Qed.

(** X8: for a child that exits with status [rc] and whose output [raw]
    is ASCII, [syscall] returns the output, with CR LF and CR read as
    newlines, exactly when [rc] is 0 and otherwise lets the
    [CalledProcessError] of [check_output] through, which holds [rc] and
    that output; it logs its two opening lines in both cases and the
    warning only when it returns an empty output. *)
Theorem X8_syscall_outcome (raw : string) (rc : Z) (err : Stderr) :
  reads_as raw child ->
  child_exit child = Some rc ->
  let out := translate_newlines raw in
  let opening :=
    [log_line w "DEPRECATED falcon_kit.util.io.syscall()";
     log_line w ("$ " ++ Repr.repr_str command ++ " >")%string] in
  let warning :=
    log_line w ("WARNING: " ++ Repr.repr_str command
                ++ " failed to produce any output.")%string in
  syscall w command err
  = (if rc =? 0 then Ok out else Raise (CalledProcessError rc argv out),
     (err ++ opening
          ++ (if (rc =? 0) && is_empty out then [warning] else []))%list)
  /\ carries_int (CalledProcessError rc argv out) rc = true
  /\ carries_str (CalledProcessError rc argv out) out = true.
Proof.
  intros Hreads Hrc. cbv zeta.
  rewrite <- (reads_as_text raw child Hreads).
  split; [apply syscall_exited, Hrc|].
  unfold carries_int, carries_str, exc_values. simpl.
  rewrite Z.eqb_refl, String.eqb_refl. simpl.
  split; reflexivity.
Qed.

(** X9: for a child that exits with status 0 and whose output is ASCII
    and, as read through the pipe, has no line-break character other than
    the newline, [slurplines] returns the lines that a fully drained
    captured reader hands out. *)
Theorem X9_slurplines_is_captured (raw : string) (err err' : Stderr) :
  reads_as raw child ->
  child_exit child = Some 0 ->
  has_other_break (child_stdout child) = false ->
  fst (slurplines w command err)
  = Ok (run_lines
          (with_reader Captured w command (mkBody Drain None) err')).
Proof.
  intros _ Hrc Hbreak. unfold slurplines.
  rewrite (syscall_exited 0 err Hrc). simpl.
  rewrite (scope_lines w command argv child Hsplit Hspawn _ _ 0 err' Hrc).
  simpl body_consume. unfold readlines, entered.
  unfold CapturedProcessReaderContext.readlines. simpl proc.
  unfold Popen_communicate. simpl popen_child. rewrite Hrc.
  unfold str_splitlines.
  rewrite (splitlines_from_cut _ Hbreak), splitlines_iter_total.
  reflexivity.
Qed.

End Shell.

(** X8 at [cat] of a file that holds one line ended by CR LF. *)
Lemma X8_syscall_outcome_witness :
  reads_as (String "a" (String CR nl)) (mkChild ("a" ++ nl) (Some 0))
  /\ syscall (single_program ["cat"; "crlf.txt"] ("a" ++ nl) (Some 0))
             "cat crlf.txt" []
     = (Ok ("a" ++ nl),
        ["[1000]DEPRECATED falcon_kit.util.io.syscall()" ++ nl;
         "[1000]$ 'cat crlf.txt' >" ++ nl]).
Proof.
  split; [reflexivity|].
  exact (proj1 (X8_syscall_outcome
                  (single_program ["cat"; "crlf.txt"] ("a" ++ nl) (Some 0))
                  "cat crlf.txt" ["cat"; "crlf.txt"]
                  (mkChild ("a" ++ nl) (Some 0)) eq_refl eq_refl
                  (String "a" (String CR nl)) 0 [] eq_refl eq_refl)).
Defined.

(** X9 at [seq 2]. *)
Lemma X9_slurplines_is_captured_witness :
  let w := single_program ["seq"; "2"] ("1" ++ nl ++ "2" ++ nl) (Some 0) in
  reads_as ("1" ++ nl ++ "2" ++ nl) (mkChild ("1" ++ nl ++ "2" ++ nl) (Some 0))
  /\ fst (slurplines w "seq 2" [])
     = Ok (run_lines (with_reader Captured w "seq 2" (mkBody Drain None) []))
  /\ fst (slurplines w "seq 2" []) = Ok ["1"; "2"].
Proof.
  cbv zeta. split; [reflexivity|]. split; [|reflexivity].
  apply (X9_slurplines_is_captured
           (single_program ["seq"; "2"] ("1" ++ nl ++ "2" ++ nl) (Some 0))
           "seq 2" ["seq"; "2"] (mkChild ("1" ++ nl ++ "2" ++ nl) (Some 0))
           eq_refl eq_refl ("1" ++ nl ++ "2" ++ nl) [] []
           eq_refl eq_refl eq_refl).
Defined.

(** X10: [system] returns the status of [os.system] unless [check] is set
    and the status is not 0, in which case it raises [Exception] with the
    message it has just logged as a warning; in every case it logs three
    lines, the last one being the message, marked as a warning when the
    status is not 0. *)
Theorem X10_system_outcome (w : World) (os_system : string -> Result Z)
    (call : string) (check : bool) (rc : Z) (err : Stderr) :
  os_system call = Ok rc ->
  let msg := "Call " ++ Repr.repr_str call ++ " returned "
             ++ Repr.repr_int rc ++ "." in
  system w os_system call check err
  = (if check && negb (rc =? 0) then Raise (Exception msg) else Ok rc,
     (err ++ [log_line w "DEPRECATED falcon_kit.util.io.system()";
              log_line w ("$(" ++ Repr.repr_str call ++ ")")%string;
              log_line w (if rc =? 0 then msg
                          else ("WARNING: " ++ msg)%string)])%list).
Proof.
  intros Hrc. cbv zeta. unfold system. rewrite Hrc.
  unfold LOG, write_with_pid, log_line. simpl.
  destruct (rc =? 0); destruct check; simpl;
    rewrite <- !app_assoc; reflexivity.
Qed.

(** X10 at a call that returns the wait status 256, with [check] set. *)
Lemma X10_system_outcome_witness :
  system (single_program [] "" None) (fun _ => Ok 256) "exit 1" true []
  = (Raise (Exception "Call 'exit 1' returned 256."),
     ["[1000]DEPRECATED falcon_kit.util.io.system()" ++ nl;
      "[1000]$('exit 1')" ++ nl;
      "[1000]WARNING: Call 'exit 1' returned 256." ++ nl]).
Proof.
  exact (X10_system_outcome (single_program [] "" None) (fun _ => Ok 256)
           "exit 1" true 256 [] eq_refl).
Defined.

(** ** More on the FOFN validator *)

Section FofnMore.

Import PyStr.

Lemma validate_each_valid (os : OS) (dirname : string) (fns : list string) :
  Forall (fun fn => valid_file os fn = true)
         (gen_yields (validate_each os dirname fns)).
Proof.
  induction fns as [|fn rest IH]; [constructor|].
  cbn [validate_each].
  destruct (is_empty fn); [constructor|].
  unfold path_isfile, filesize.
  destruct (os_stat os (resolved os dirname fn)) as [st|] eqn:E;
    [|constructor].
  destruct (st_isreg st) eqn:Hreg; [|constructor]. simpl.
  destruct (st_size st =? 0) eqn:Hsize; [constructor|].
  simpl. constructor; [|exact IH].
  unfold valid_file. rewrite E, Hreg, Hsize. reflexivity.
Qed.

(** X11: every path that [yield_validated_fns] yields, also before it
    raises, is a regular file of non-zero size; and when [validated_fns]
    returns a list, it has written nothing to [stderr]. *)
Theorem X11_validated_files_are_valid (os : OS) (fofn : string)
    (err : Stderr) :
  Forall (fun fn => valid_file os fn = true)
         (gen_yields (fst (yield_validated_fns os fofn err)))
  /\ (forall fns : list string,
        fst (validated_fns os fofn err) = Ok fns ->
        Forall (fun fn => valid_file os fn = true) fns
        /\ snd (validated_fns os fofn err) = err).
Proof.
  assert (Hall : Forall (fun fn => valid_file os fn = true)
                   (gen_yields (fst (yield_validated_fns os fofn err)))).
  { unfold yield_validated_fns.
    destruct (fofn_entries os fofn) as [fns|e|]; simpl; try constructor.
    pose proof (validate_each_valid os
                  (path_normpath os (path_dirname os (path_realpath os fofn)))
                  fns) as H.
    destruct (gen_end (validate_each os _ fns)); exact H. }
  split; [exact Hall|].
  intros fns. unfold validated_fns.
  destruct (yield_validated_fns os fofn err) as [g err'] eqn:E.
  simpl in Hall. simpl. unfold list_of_gen.
  destruct (gen_end g) eqn:Hend; try discriminate.
  intros H. injection H as <-. split; [exact Hall|].
  unfold yield_validated_fns in E.
  destruct (fofn_entries os fofn) as [fns|e|];
    try (injection E as <- <-; discriminate Hend).
  cbv zeta in E.
  destruct (gen_end (validate_each os _ fns)) eqn:Hend';
    injection E as <- <-; try reflexivity.
  rewrite Hend' in Hend. discriminate Hend.
Qed.

(** X11 at a manifest of two good entries. *)
Lemma X11_validated_files_are_valid_witness :
  let os := data_os ("a.fa" ++ nl ++ "/data/a.fa" ++ nl) in
  fst (validated_fns os "/data/in.fofn" []) = Ok ["/data/a.fa"; "/data/a.fa"]
  /\ Forall (fun fn => valid_file os fn = true) ["/data/a.fa"; "/data/a.fa"]
  /\ snd (validated_fns os "/data/in.fofn" []) = [].
Proof.
  cbv zeta. split; [reflexivity|].
  exact (proj2 (X11_validated_files_are_valid
                  (data_os ("a.fa" ++ nl ++ "/data/a.fa" ++ nl))
                  "/data/in.fofn" [])
               ["/data/a.fa"; "/data/a.fa"] eq_refl).
Defined.

Lemma rev_string_not_empty (s acc : string) :
  is_empty acc = false -> is_empty (rev_string acc s) = false.
Proof.
  revert acc. induction s as [|c s IH]; intros acc H; [exact H|].
  simpl. apply IH. reflexivity.
Qed.

Lemma rev_string_no_space (s acc : string) :
  has_space acc = false -> has_space s = false ->
  has_space (rev_string acc s) = false.
Proof.
  revert acc. induction s as [|c s IH]; intros acc Hacc Hs; [exact Hacc|].
  simpl in Hs. apply orb_false_iff in Hs. destruct Hs as [Hc Hs].
  simpl. apply IH; [|exact Hs]. simpl. rewrite Hc. exact Hacc.
Qed.

Lemma rev_word (cur : string) :
  is_empty cur = false -> has_space cur = false ->
  is_empty (rev_string "" cur) = false
  /\ has_space (rev_string "" cur) = false.
Proof.
  intros Hne Hsp. split.
  - destruct cur as [|c cur]; [discriminate Hne|].
    simpl. apply rev_string_not_empty. reflexivity.
  - apply rev_string_no_space; [reflexivity | exact Hsp].
Qed.

Lemma split_ws_from_words (s cur : string) :
  has_space cur = false ->
  Forall (fun word => is_empty word = false /\ has_space word = false)
         (split_ws_from cur s).
Proof.
  revert cur. induction s as [|c s IH]; intros cur Hcur.
  - simpl. destruct (is_empty cur) eqn:E; constructor; [|constructor].
    apply rev_word; assumption.
  - simpl. destruct (isspace c) eqn:Hc.
    + destruct (is_empty cur) eqn:E; [apply IH; reflexivity|].
      constructor; [apply rev_word; assumption | apply IH; reflexivity].
    + apply IH. simpl. rewrite Hc. exact Hcur.
Qed.

(** X12: the entries read from a plain-text manifest (one that
    [deserialize] rejects) are never empty and never hold a white-space
    character. *)
Theorem X12_plain_text_entries (os : OS) (fofn text : string) (e : PyExc) :
  deserialize os fofn = Raise e -> read_file os fofn = Ok text ->
  exists fns : list string,
    fofn_entries os fofn = Ok fns
    /\ Forall (fun fn => is_empty fn = false /\ has_space fn = false) fns.
Proof.
  intros Hde Hread. exists (split_ws (strip text)). split.
  - unfold fofn_entries. rewrite Hde, Hread. reflexivity.
  - apply split_ws_from_words. reflexivity.
Qed.

(** X12 at a manifest that names a file with a blank in its name: the
    name is read as two entries. *)
Lemma X12_plain_text_entries_witness :
  exists fns : list string,
    fofn_entries (data_os ("my reads.fa" ++ nl)) "/data/in.fofn" = Ok fns
    /\ Forall (fun fn => is_empty fn = false /\ has_space fn = false) fns.
Proof.
  exact (X12_plain_text_entries (data_os ("my reads.fa" ++ nl))
           "/data/in.fofn" ("my reads.fa" ++ nl)
           (Exception "Unknown extension") eq_refl eq_refl).
Defined.

Lemma lstrip_all_space (t : string) : all_space t = true -> lstrip t = "".
Proof.
  induction t as [|c t IH]; [reflexivity|].
  simpl. intros H. apply andb_true_iff in H. destruct H as [Hc Ht].
  rewrite Hc. apply IH, Ht.
Qed.

(** X13: a plain-text manifest that is empty or holds only white space
    passes: [validated_fns] returns the empty list and writes nothing. *)
Theorem X13_blank_manifest_passes (os : OS) (fofn text : string) (e : PyExc)
    (err : Stderr) :
  deserialize os fofn = Raise e -> read_file os fofn = Ok text ->
  all_space text = true ->
  validated_fns os fofn err = (Ok [], err).
Proof.
  intros Hde Hread Hblank.
  unfold validated_fns, yield_validated_fns, fofn_entries.
  rewrite Hde, Hread. unfold strip.
  rewrite (lstrip_all_space text Hblank). reflexivity.
Qed.

(** X13 at a manifest of two newlines and a blank. *)
Lemma X13_blank_manifest_passes_witness :
  validated_fns (data_os (nl ++ " " ++ nl)) "/data/in.fofn" [] = (Ok [], []).
Proof.
  exact (X13_blank_manifest_passes (data_os (nl ++ " " ++ nl))
           "/data/in.fofn" (nl ++ " " ++ nl)
           (Exception "Unknown extension") [] eq_refl eq_refl eq_refl).
Defined.

End FofnMore.

(** ** [TemporaryDirectory] *)

Section TempDir.

Variable w : World.
Variable name : string.
Variable block : string -> list string -> Outcome * list string.
Variables (fs fs_after : list string) (ended : Outcome).
Hypothesis Hblock : block name (name :: fs) = (ended, fs_after).
Hypothesis Hended : ended <> Hangs.

(** X17: when the block ends, normally or with an exception, and the
    directory is still there, the statement ends the way the block did,
    nothing is left of the directory or below it, and every other path is
    as the block left it. *)
Theorem X17_temporary_directory_removed (err : Stderr) :
  existsb (String.eqb name) fs_after = true ->
  exists fs_end : list string,
    TemporaryDirectory w name block fs err
    = (ended, fs_end,
       (err ++ [log_line w ("TemporaryDirectory="
                            ++ Repr.repr_str name)%string])%list)
    /\ Forall (fun path => under name path = false) fs_end
    /\ (forall path : string,
          under name path = false -> (In path fs_end <-> In path fs_after)).
Proof.
  intros Hthere.
  exists (filter (fun path => negb (under name path)) fs_after).
  split; [|split].
  - unfold TemporaryDirectory. rewrite Hblock. unfold rmtree.
    rewrite Hthere. destruct ended; try reflexivity. contradiction.
  - apply Forall_forall. intros path H. apply filter_In in H.
    destruct H as [_ H]. apply negb_true_iff in H. exact H.
  - intros path Hout. rewrite filter_In, Hout. simpl. tauto.
Qed.

(** X18: when the block has removed the directory itself, [rmtree] fails
    and the statement raises its error, also in place of an exception of
    the block. *)
Theorem X18_temporary_directory_gone (err : Stderr) :
  existsb (String.eqb name) fs_after = false ->
  TemporaryDirectory w name block fs err
  = (Raises (OSError name), fs_after,
     (err ++ [log_line w ("TemporaryDirectory="
                          ++ Repr.repr_str name)%string])%list).
Proof.
  intros Hgone. unfold TemporaryDirectory. rewrite Hblock. unfold rmtree.
  rewrite Hgone. destruct ended; try reflexivity. contradiction.
Qed.

End TempDir.

(** X17 at a block that writes a file into the directory and then
    raises. *)
Lemma X17_temporary_directory_removed_witness :
  exists fs_end : list string,
    TemporaryDirectory (single_program [] "" None) "/tmp/tmpab"
      (fun name fs => (Raises (ValueError "stop"),
                       (name ++ "/out.txt")%string :: fs))
      ["/tmp/tmpabc"; "/home"] []
    = (Raises (ValueError "stop"), fs_end,
       ["[1000]TemporaryDirectory='/tmp/tmpab'" ++ nl])
    /\ Forall (fun path => under "/tmp/tmpab" path = false) fs_end
    /\ (forall path : string,
          under "/tmp/tmpab" path = false ->
          (In path fs_end
           <-> In path ["/tmp/tmpab/out.txt"; "/tmp/tmpab"; "/tmp/tmpabc";
                        "/home"])).
Proof.
  apply (X17_temporary_directory_removed (single_program [] "" None)
           "/tmp/tmpab"
           (fun name fs => (Raises (ValueError "stop"),
                            (name ++ "/out.txt")%string :: fs))
           ["/tmp/tmpabc"; "/home"]
           ["/tmp/tmpab/out.txt"; "/tmp/tmpab"; "/tmp/tmpabc"; "/home"]
           (Raises (ValueError "stop")) eq_refl).
  - discriminate.
  - reflexivity.
Defined.

(** X18 at a block that removes the directory and raises. *)
Lemma X18_temporary_directory_gone_witness :
  TemporaryDirectory (single_program [] "" None) "/tmp/tmpab"
    (fun name fs => (Raises (ValueError "stop"), tl fs)) ["/home"] []
  = (Raises (OSError "/tmp/tmpab"), ["/home"],
     ["[1000]TemporaryDirectory='/tmp/tmpab'" ++ nl]).
Proof.
  apply (X18_temporary_directory_gone (single_program [] "" None)
           "/tmp/tmpab"
           (fun name fs => (Raises (ValueError "stop"), tl fs)) ["/home"]
           ["/home"] (Raises (ValueError "stop")) eq_refl).
  - discriminate.
  - reflexivity.
Defined.

(** ** [DataReaderContext] *)

Section DataReaderLines.

Import PyStr.

Lemma linebreak_is_space (c : ascii) :
  is_linebreak c = true -> isspace c = true.
Proof.
  destruct c as [[] [] [] [] [] [] [] []]; intros H;
    first [reflexivity | discriminate H].
Qed.

Lemma splitlines_from_no_break (s : string) :
  forall b : bool,
    Forall (fun l => has_linebreak l = false) (splitlines_from b s).
Proof.
  induction s as [|c s IH]; intros b; [constructor|].
  cbn [splitlines_from].
  destruct (b && Ascii.eqb c NL); [apply IH|].
  destruct (is_linebreak c) eqn:E.
  - constructor; [reflexivity | apply IH].
  - specialize (IH false). destruct (splitlines_from false s) as [|l ls].
    + constructor; [|constructor]. simpl. rewrite E. reflexivity.
    + apply Forall_cons_iff in IH. destruct IH as [Hl Hls].
      constructor; [|exact Hls]. simpl. rewrite E. exact Hl.
Qed.

Lemma not_space_not_break (c : ascii) (b : bool) :
  isspace c = false ->
  (b && Ascii.eqb c NL) = false /\ is_linebreak c = false.
Proof.
  intros H. split.
  - destruct (Ascii.eqb c NL) eqn:E; [|apply andb_false_r].
    apply Ascii.eqb_eq in E. subst c. discriminate H.
  - destruct (is_linebreak c) eqn:E; [|reflexivity].
    apply linebreak_is_space in E. rewrite E in H. discriminate H.
Qed.

Lemma splitlines_first (c : ascii) (s : string) :
  isspace c = false -> hd "" (splitlines_from false (String c s)) <> "".
Proof.
  intros H. cbn [splitlines_from].
  destruct (not_space_not_break c false H) as [H1 H2]. rewrite H1, H2.
  destruct (splitlines_from false s); simpl; discriminate.
Qed.

Lemma splitlines_last (s : string) :
  s <> "" -> ends_with_space s = false ->
  forall b : bool, last (splitlines_from b s) "" <> "".
Proof.
  induction s as [|c s IH]; intros Hne Hend b; [contradiction|].
  destruct s as [|d s].
  - simpl in Hend. cbn [splitlines_from].
    destruct (not_space_not_break c b Hend) as [H1 H2]. rewrite H1, H2.
    simpl. discriminate.
  - assert (Hlast : forall b', last (splitlines_from b' (String d s)) "" <> "")
      by (apply IH; [discriminate | exact Hend]).
    change (splitlines_from b (String c (String d s)))
      with (if b && Ascii.eqb c NL then splitlines_from false (String d s)
            else if is_linebreak c
                 then "" :: splitlines_from (Ascii.eqb c CR) (String d s)
                 else match splitlines_from false (String d s) with
                      | [] => [String c ""]
                      | l :: ls => String c l :: ls
                      end).
    destruct (b && Ascii.eqb c NL); [apply Hlast|].
    destruct (is_linebreak c).
    + specialize (Hlast (Ascii.eqb c CR)).
      destruct (splitlines_from (Ascii.eqb c CR) (String d s));
        [exact Hlast | exact Hlast].
    + specialize (Hlast false).
      destruct (splitlines_from false (String d s)) as [|l [|l' ls]].
      * simpl. discriminate.
      * simpl. discriminate.
      * exact Hlast.
Qed.

Lemma lstrip_starts (s : string) :
  all_space s = false ->
  exists (c : ascii) (rest : string),
    lstrip s = String c rest /\ isspace c = false.
Proof.
  induction s as [|c s IH]; [discriminate|].
  simpl. destruct (isspace c) eqn:E; simpl.
  - exact IH.
  - intros _. exists c, s. split; [reflexivity | exact E].
Qed.

Lemma rstrip_keeps_first (c : ascii) (s : string) :
  isspace c = false -> exists rest, rstrip (String c s) = String c rest.
Proof.
  intros H. simpl. destruct (rstrip s).
  - rewrite H. exists "". reflexivity.
  - eexists. reflexivity.
Qed.

(** X19: no line that [DataReaderContext.readlines] yields holds a
    line-break character; data that is empty or all white space yields no
    line; for any other data the first and the last line yielded are not
    empty. *)
Theorem X19_data_reader_lines (text : string) :
  let lines :=
    DataReaderContext.readlines (DataReaderContext.__init__ text) in
  Forall (fun l => has_linebreak l = false) lines
  /\ (all_space text = true -> lines = [])
  /\ (all_space text = false -> hd "" lines <> "" /\ last lines "" <> "").
Proof.
  cbv zeta. unfold DataReaderContext.readlines, DataReaderContext.__init__.
  cbn [data]. unfold str_splitlines. split; [|split].
  - apply splitlines_from_no_break.
  - intros H. unfold strip. rewrite (lstrip_all_space text H). reflexivity.
  - intros H. unfold strip.
    destruct (lstrip_starts text H) as (c & rest & Hl & Hc). rewrite Hl.
    destruct (rstrip_keeps_first c rest Hc) as (rest' & Hr).
    split.
    + rewrite Hr. apply splitlines_first, Hc.
    + apply splitlines_last.
      * rewrite Hr. discriminate.
      * apply (proj2 (rstrip_spec (String c rest))).
Qed.

(** X19 at data with blank lines around two lines. *)
Lemma X19_data_reader_lines_witness :
  all_space (nl ++ " a" ++ nl ++ "b " ++ nl ++ nl) = false
  /\ DataReaderContext.readlines
       (DataReaderContext.__init__ (nl ++ " a" ++ nl ++ "b " ++ nl ++ nl))
     = ["a"; "b"]
  /\ hd "" (DataReaderContext.readlines
              (DataReaderContext.__init__
                 (nl ++ " a" ++ nl ++ "b " ++ nl ++ nl))) <> ""
  /\ last (DataReaderContext.readlines
             (DataReaderContext.__init__
                (nl ++ " a" ++ nl ++ "b " ++ nl ++ nl))) "" <> "".
Proof.
  split; [reflexivity|]. split; [reflexivity|].
  destruct (X19_data_reader_lines (nl ++ " a" ++ nl ++ "b " ++ nl ++ nl))
    as (_ & _ & H).
  exact (H eq_refl).
Defined.

End DataReaderLines.

(** ** More edge behaviour *)

Section Edges.

Import PyStr.

(** X20: when [deserialize] rejects the manifest and the file cannot be
    read as text either, the validator raises the error of [open], not the
    one of [deserialize]; nothing is yielded and nothing is written to
    [stderr]. *)
Theorem X20_unreadable_manifest (os : OS) (fofn : string)
    (parse_error open_error : PyExc) (err : Stderr) :
  deserialize os fofn = Raise parse_error ->
  read_file os fofn = Raise open_error ->
  yield_validated_fns os fofn err = (mkGen [] (Raise open_error), err)
  /\ validated_fns os fofn err = (Raise open_error, err).
Proof.
  intros Hde Hread.
  assert (Hgen : yield_validated_fns os fofn err
                 = (mkGen [] (Raise open_error), err)).
  { unfold yield_validated_fns, fofn_entries. rewrite Hde, Hread.
    reflexivity. }
  split; [exact Hgen|]. unfold validated_fns. rewrite Hgen. reflexivity.
Qed.

(** X20 at a manifest that does not exist. *)
Lemma X20_unreadable_manifest_witness :
  validated_fns (data_os "") "/data/missing.fofn" []
  = (Raise (OSError "/data/missing.fofn"), []).
Proof.
  exact (proj2 (X20_unreadable_manifest (data_os "") "/data/missing.fofn"
                  (Exception "Unknown extension")
                  (OSError "/data/missing.fofn") [] eq_refl eq_refl)).
Defined.

Lemma terminated_app (ls ls' : list string) :
  terminated (ls ++ ls') = terminated ls ++ terminated ls'.
Proof.
  induction ls as [|l ls IH]; [reflexivity|].
  simpl. rewrite IH, append_assoc. reflexivity.
Qed.

(** X21: the lines of a text that begins with complete lines are these
    lines followed by the lines of the rest of the text. *)
Theorem X21_splitlines_iter_after_lines (ls : list string) (t : string) :
  Forall no_nl ls ->
  exists rest : list string,
    splitlines_iter t = Some rest
    /\ splitlines_iter (terminated ls ++ t) = Some (ls ++ rest)%list.
Proof.
  intros Hls.
  destruct (cut_lines t) as [ls' f] eqn:E.
  destruct (cut_lines_spec t ls' f E) as (Ht & Hls' & Hf).
  exists (ls' ++ fragment f)%list. split.
  - rewrite Ht at 1. apply splitlines_iter_lines; assumption.
  - rewrite Ht, <- append_assoc, <- terminated_app, app_assoc.
    apply splitlines_iter_lines; [|exact Hf].
    apply Forall_app. split; assumption.
Qed.

(** X21 at two lines put before a text with an unterminated last line. *)
Lemma X21_splitlines_iter_after_lines_witness :
  exists rest : list string,
    splitlines_iter ("c" ++ nl ++ "d") = Some rest
    /\ splitlines_iter (terminated ["a"; ""] ++ "c" ++ nl ++ "d")
       = Some (["a"; ""] ++ rest)%list.
Proof.
  apply (X21_splitlines_iter_after_lines ["a"; ""] ("c" ++ nl ++ "d")).
  repeat constructor.
Defined.

(** X22: when the command cannot be split or the child cannot be started,
    the with-statement raises that error right at scope-entry, after the
    command has been logged: the block does not run, no line is read,
    [__exit__] is not called and the reader has neither [proc] nor
    [returncode]. *)
Theorem X22_spawn_failure (v : Variant) (w : World) (command : string)
    (body : Body) (e : PyExc) (err : Stderr) :
  shlex_split w command = Raise e
  \/ (exists argv : list string,
        shlex_split w command = Ok argv /\ spawn w argv = Raise e) ->
  with_reader v w command body err
  = mkRun (Raises e) [] (mkReader command None None)
          (err ++ [log_line w (Repr.repr_str command)])%list.
Proof.
  intros [H | (argv & Hs & Hp)]; unfold with_reader,
    ProcessReaderContext.__enter__, ProcessReaderContext.__init__; simpl.
  - rewrite H. reflexivity.
  - rewrite Hs, Hp. reflexivity.
Qed.

End Edges.

(** X22 at a command with an unbalanced quote. *)
Lemma X22_spawn_failure_witness :
  let w := mkWorld 7 (fun _ => Raise (ValueError "No closing quotation"))
                   (fun _ => Hang) in
  with_reader Captured w "echo 'a" (mkBody Drain None) []
  = mkRun (Raises (ValueError "No closing quotation")) []
          (mkReader "echo 'a" None None)
          ["[7]" ++ String Repr.dquote ("echo 'a" ++ String Repr.dquote nl)].
Proof.
  apply (X22_spawn_failure Captured
           (mkWorld 7 (fun _ => Raise (ValueError "No closing quotation"))
                    (fun _ => Hang))
           "echo 'a" (mkBody Drain None)
           (ValueError "No closing quotation") []).
  left. reflexivity.
Defined.
